(** * SpiceGTK viewer: the callbacks of [main.c] and their event traces

    [main.c] is GTK/SPICE glue: four callbacks ([onClose], [channelEvent],
    [newChannel], [activate]) wired together with GLib signals, two global
    pointers ([window], [spiceSession]) and a sequence of library calls.

    The embedding keeps exactly that shape.  The program state is the two
    globals, the table of signal connections made with [g_signal_connect],
    the allocator of the library constructors and the chronological trace
    of the library calls the program has issued.  Each callback is a
    computation in a small state monad whose body follows the C text line
    by line.  The environment (the GLib main loop) is a list of events;
    delivering an event runs the callbacks connected to that signal.

    What the libraries do inside a call (drawing, networking, the state of
    the SPICE session object) is not part of the program and is not
    modelled: a call is recorded in the trace with the arguments the
    program passed. *)

From Stdlib Require Import ZArith NArith List String Bool Lia.
Import ListNotations.

Local Open Scope string_scope.
Local Open Scope Z_scope.
Local Open Scope list_scope.

(** ** Objects *)

(** Address of an object returned by a library constructor. *)
Definition handle := N.

(** A [SpiceChannel*] together with the two construct-only properties that
    [newChannel] reads with [g_object_get]. *)
Record SpiceChannel : Set := mkChannel {
  chan_addr : handle;
  channel_type : Z;      (* property "channel-type", a gint *)
  channel_id : Z         (* property "channel-id", a gint *)
}.

(** The enumeration [SpiceChannelEvent] of spice-gtk. *)
Inductive SpiceChannelEvent : Set :=
| SPICE_CHANNEL_NONE
| SPICE_CHANNEL_OPENED
| SPICE_CHANNEL_SWITCHING
| SPICE_CHANNEL_CLOSED
| SPICE_CHANNEL_ERROR_CONNECT
| SPICE_CHANNEL_ERROR_TLS
| SPICE_CHANNEL_ERROR_LINK
| SPICE_CHANNEL_ERROR_AUTH
| SPICE_CHANNEL_ERROR_IO.

Definition is_error_connect (e : SpiceChannelEvent) : bool :=
  match e with SPICE_CHANNEL_ERROR_CONNECT => true | _ => false end.

(** The objects a signal can be connected to in this program. *)
Inductive gobject : Set :=
| obj_app                              (* the GtkApplication of [main] *)
| obj_widget (w : handle)              (* a GtkWidget *)
| obj_session (s : handle)             (* a SpiceSession *)
| obj_channel (c : SpiceChannel).      (* a SpiceChannel *)

Definition channel_eqb (a b : SpiceChannel) : bool :=
  N.eqb (chan_addr a) (chan_addr b)
  && Z.eqb (channel_type a) (channel_type b)
  && Z.eqb (channel_id a) (channel_id b).

Definition gobject_eqb (a b : gobject) : bool :=
  match a, b with
  | obj_app, obj_app => true
  | obj_widget x, obj_widget y => N.eqb x y
  | obj_session x, obj_session y => N.eqb x y
  | obj_channel x, obj_channel y => channel_eqb x y
  | _, _ => false
  end.

(** The four functions of [main.c] that are passed to [g_signal_connect]. *)
Inductive callback : Set :=
| cb_onClose
| cb_channelEvent
| cb_newChannel
| cb_activate.

(** One [g_signal_connect (instance, detailed_signal, c_handler, NULL)]. *)
Record connection : Set := mkConn {
  conn_obj : gobject;
  conn_signal : string;
  conn_cb : callback
}.

(** ** Library calls, as recorded in the trace *)

Inductive call : Set :=
| c_printf (text : string)
| c_printf_channel (channelType : Z)
    (* printf("%d: %s\n", channelType, spice_channel_type_to_string(channelType)) *)
| c_gtk_application_new (application_id : string)
| c_g_signal_connect (o : gobject) (detailed_signal : string) (cb : callback)
| c_g_signal_emit_by_name (o : option handle) (detailed_signal : string)
| c_gtk_application_window_new (w : handle)
| c_gtk_window_new (w : handle)
| c_gtk_window_set_title (w : handle) (title : string)
| c_gtk_window_set_default_size (w : handle) (width height : Z)
| c_gtk_container_add (container : option handle) (child : handle)
| c_gtk_widget_show_all (w : option handle)
| c_spice_session_new (s : handle)
| c_g_object_set_property (s : handle) (property_name value : string)
| c_spice_session_connect (s : handle)
| c_spice_session_disconnect (s : option handle)
| c_spice_display_new (session : handle) (channelId : Z) (d : handle)
| c_spice_usb_device_widget_new (session : handle) (fmt : string) (u : handle).

(** ** Program state *)

Record State : Type := mkState {
  window : option handle;          (* GtkWidget *window;  NULL at start *)
  spiceSession : option handle;    (* SpiceSession* spiceSession;  NULL at start *)
  connections : list connection;   (* signal connections, in connection order *)
  next_handle : handle;            (* next address the constructors hand out *)
  trace : list call                (* library calls so far, oldest first *)
}.

Definition initial : State :=
  mkState None None [] 0%N [].

(** ** A state monad for the callbacks *)

Definition M (A : Type) : Type := State -> A * State.

Definition ret {A : Type} (a : A) : M A := fun st => (a, st).

Definition bind {A B : Type} (m : M A) (k : A -> M B) : M B :=
  fun st => let (a, st') := m st in k a st'.

Notation "x <- m ;; k" := (bind m (fun x => k))
  (at level 61, m at next level, right associativity).
Notation "m ;; k" := (bind m (fun _ => k))
  (at level 61, right associativity).

Definition exec {A : Type} (m : M A) (st : State) : State := snd (m st).

(** Record a library call. *)
Definition emit (c : call) : M unit :=
  fun st => (tt, mkState (window st) (spiceSession st) (connections st)
                         (next_handle st) (trace st ++ [c])).

(** A constructor of one of the libraries returns a fresh object. *)
Definition fresh : M handle :=
  fun st => (next_handle st,
             mkState (window st) (spiceSession st) (connections st)
                     (N.succ (next_handle st)) (trace st)).

Definition get_window : M (option handle) := fun st => (window st, st).
Definition get_spiceSession : M (option handle) := fun st => (spiceSession st, st).

Definition set_window (w : option handle) : M unit :=
  fun st => (tt, mkState w (spiceSession st) (connections st)
                         (next_handle st) (trace st)).

Definition set_spiceSession (s : option handle) : M unit :=
  fun st => (tt, mkState (window st) s (connections st)
                         (next_handle st) (trace st)).

(** ** The library calls used by [main.c] *)

Definition printf (text : string) : M unit := emit (c_printf text).

Definition printf_channel (channelType : Z) : M unit :=
  emit (c_printf_channel channelType).

(** [g_signal_connect] appends the handler to the handlers of the signal. *)
Definition g_signal_connect (o : gobject) (sig : string) (cb : callback) : M unit :=
  emit (c_g_signal_connect o sig cb) ;;
  fun st => (tt, mkState (window st) (spiceSession st)
                         (connections st ++ [mkConn o sig cb])
                         (next_handle st) (trace st)).

Definition gtk_application_window_new : M handle :=
  w <- fresh ;; emit (c_gtk_application_window_new w) ;; ret w.

Definition gtk_window_new : M handle :=
  w <- fresh ;; emit (c_gtk_window_new w) ;; ret w.

Definition gtk_window_set_title (w : handle) (title : string) : M unit :=
  emit (c_gtk_window_set_title w title).

Definition gtk_window_set_default_size (w : handle) (width height : Z) : M unit :=
  emit (c_gtk_window_set_default_size w width height).

Definition gtk_container_add (container : option handle) (child : handle) : M unit :=
  emit (c_gtk_container_add container child).

Definition gtk_widget_show_all (w : option handle) : M unit :=
  emit (c_gtk_widget_show_all w).

Definition spice_session_new : M handle :=
  s <- fresh ;; emit (c_spice_session_new s) ;; ret s.

Definition g_object_set_property (s : handle) (name value : string) : M unit :=
  emit (c_g_object_set_property s name value).

Definition spice_session_connect (s : handle) : M unit :=
  emit (c_spice_session_connect s).

Definition spice_session_disconnect (s : option handle) : M unit :=
  emit (c_spice_session_disconnect s).

Definition spice_display_new (session : handle) (channelId : Z) : M handle :=
  d <- fresh ;; emit (c_spice_display_new session channelId d) ;; ret d.

Definition spice_usb_device_widget_new (session : handle) (fmt : string) : M handle :=
  u <- fresh ;; emit (c_spice_usb_device_widget_new session fmt u) ;; ret u.

(** ** Signal emission *)

Definition conn_matches (o : gobject) (sig : string) (c : connection) : bool :=
  gobject_eqb (conn_obj c) o && String.eqb (conn_signal c) sig.

(** The handlers connected to signal [sig] of object [o], in connection order. *)
Definition handlers (o : gobject) (sig : string) (st : State) : list callback :=
  map conn_cb (filter (conn_matches o sig) (connections st)).

Fixpoint run_callbacks (ms : list (M unit)) : M unit :=
  match ms with
  | [] => ret tt
  | m :: ms' => m ;; run_callbacks ms'
  end.

(** Emitting a signal runs the connected handlers one after the other. *)
Definition dispatch (o : gobject) (sig : string) (invoke : callback -> M unit) : M unit :=
  fun st => run_callbacks (map invoke (handlers o sig st)) st.

(** ** The callbacks of [main.c] *)

(** [void onClose()], lines 8-10. *)
Definition onClose : M unit :=
  s <- get_spiceSession ;;
  spice_session_disconnect s.

(** Calling a handler of "destroy".  The only function this program ever
    connects to "destroy" is [onClose] (line 47), so the other cases are
    never reached: see [inv_destroy] of the invariant [Inv] below. *)
Definition invoke_destroy (cb : callback) : M unit :=
  match cb with
  | cb_onClose => onClose
  | _ => ret tt
  end.

(** [g_signal_emit_by_name (instance, "destroy")]; on a NULL instance GLib
    returns without emitting. *)
Definition g_signal_emit_by_name_destroy (w : option handle) : M unit :=
  emit (c_g_signal_emit_by_name w "destroy") ;;
  match w with
  | None => ret tt
  | Some w' => dispatch (obj_widget w') "destroy" invoke_destroy
  end.

(** [void channelEvent(SpiceChannel*, SpiceChannelEvent, gpointer)], lines 12-17. *)
Definition channelEvent (channel : SpiceChannel) (event : SpiceChannelEvent) : M unit :=
  if is_error_connect event then
    printf "SPICE_CHANNEL_ERROR_CONNECT\n" ;;
    w <- get_window ;;
    g_signal_emit_by_name_destroy w
  else ret tt.

(** [void newChannel(SpiceSession*, SpiceChannel*, gpointer)], lines 19-40. *)
Definition newChannel (session : handle) (channel : SpiceChannel) : M unit :=
  let channelType := channel_type channel in
  printf_channel channelType ;;
  if channelType =? 1 then
    g_signal_connect (obj_channel channel) "channel-event" cb_channelEvent
  else if channelType =? 2 then
    let channelId := channel_id channel in
    spiceDisplay <- spice_display_new session channelId ;;
    w <- get_window ;;
    gtk_container_add w spiceDisplay ;;
    w' <- get_window ;;
    gtk_widget_show_all w' ;;
    USBWindow <- gtk_window_new ;;
    gtk_window_set_title USBWindow "USB redirection" ;;
    USBWidget <- spice_usb_device_widget_new session "%s %s %s at %d-%d" ;;
    gtk_container_add (Some USBWindow) USBWidget ;;
    gtk_widget_show_all (Some USBWindow)
  else ret tt.

Definition session_uri : string := "spice://localhost?port=5900".

(** [void activate(GtkApplication*, gpointer)], lines 43-59.  Lines 53-57
    build a [GValue] holding the static string and store it in property
    "uri" of the session; they are one [g_object_set_property] here. *)
Definition activate : M unit :=
  w <- gtk_application_window_new ;;
  set_window (Some w) ;;
  gtk_window_set_title w "VM Viewer" ;;
  gtk_window_set_default_size w 800 600 ;;
  g_signal_connect (obj_widget w) "destroy" cb_onClose ;;
  s <- spice_session_new ;;
  set_spiceSession (Some s) ;;
  g_signal_connect (obj_session s) "channel-new" cb_newChannel ;;
  g_object_set_property s "uri" session_uri ;;
  spice_session_connect s.

(** ** The main loop *)

(** What the GLib main loop delivers to the program. *)
Inductive event : Set :=
| ev_activate                                         (* the application is activated *)
| ev_destroy (w : handle)                             (* window [w] is destroyed *)
| ev_channel_new (s : handle) (c : SpiceChannel)      (* session [s] announces channel [c] *)
| ev_channel_event (c : SpiceChannel) (e : SpiceChannelEvent).

(** Calling a handler of "activate", "channel-new" and "channel-event" with
    the arguments of the signal.  Each signal only ever has the one function
    that [main.c] connects to it ([inv_app], [inv_channel_new] and
    [attached_eq] below); the other cases are never reached. *)
Definition invoke_activate (cb : callback) : M unit :=
  match cb with cb_activate => activate | _ => ret tt end.

Definition invoke_channel_new (s : handle) (c : SpiceChannel) (cb : callback) : M unit :=
  match cb with cb_newChannel => newChannel s c | _ => ret tt end.

Definition invoke_channel_event (c : SpiceChannel) (e : SpiceChannelEvent)
    (cb : callback) : M unit :=
  match cb with cb_channelEvent => channelEvent c e | _ => ret tt end.

Definition deliver (ev : event) : M unit :=
  match ev with
  | ev_activate => dispatch obj_app "activate" invoke_activate
  | ev_destroy w => dispatch (obj_widget w) "destroy" invoke_destroy
  | ev_channel_new s c => dispatch (obj_session s) "channel-new" (invoke_channel_new s c)
  | ev_channel_event c e => dispatch (obj_channel c) "channel-event" (invoke_channel_event c e)
  end.

Definition step (ev : event) (st : State) : State := exec (deliver ev) st.

Fixpoint run (evs : list event) (st : State) : State :=
  match evs with
  | [] => st
  | ev :: evs' => run evs' (step ev st)
  end.

(** [int main(int argc, char **argv)], lines 61-71: create the application,
    connect [activate], and let [g_application_run] deliver events.  The
    program never reads [argv]; it is handed to the library as is. *)
Definition main_setup : M unit :=
  emit (c_gtk_application_new "org.gtk.example") ;;
  g_signal_connect obj_app "activate" cb_activate.

Definition main (argv : list string) (evs : list event) : State :=
  run evs (exec main_setup initial).

(** ** Observations on states and traces *)

(** [st] with the calls [delta] appended to its trace and nothing else changed. *)
Definition log (delta : list call) (st : State) : State :=
  mkState (window st) (spiceSession st) (connections st) (next_handle st)
          (trace st ++ delta).

(** The calls issued between [st] and a later state [st']. *)
Definition new_calls (st st' : State) : list call :=
  skipn (List.length (trace st)) (trace st').

(** How many times [channelEvent] is attached to "channel-event" of [c]. *)
Definition attached (c : SpiceChannel) (st : State) : nat :=
  List.length (handlers (obj_channel c) "channel-event" st).

Definition is_window_new (w : handle) (c : call) : bool :=
  match c with c_gtk_application_window_new w' => N.eqb w w' | _ => false end.

Definition is_session_new (s : handle) (c : call) : bool :=
  match c with c_spice_session_new s' => N.eqb s s' | _ => false end.

(** [w] is a main window: it was made by [gtk_application_window_new]. *)
Definition main_window (w : handle) (tr : list call) : bool :=
  existsb (is_window_new w) tr.

(** [s] is a session of the program: it was made by [spice_session_new]. *)
Definition session_made (s : handle) (tr : list call) : bool :=
  existsb (is_session_new s) tr.

Definition is_usb_widget_new (c : call) : bool :=
  match c with c_spice_usb_device_widget_new _ _ _ => true | _ => false end.

Definition is_display_new (s : handle) (id : Z) (c : call) : bool :=
  match c with
  | c_spice_display_new s' id' _ => N.eqb s s' && Z.eqb id id'
  | _ => false
  end.

Definition is_disconnect (c : call) : bool :=
  match c with c_spice_session_disconnect _ => true | _ => false end.

Definition count (p : call -> bool) (tr : list call) : nat :=
  List.length (filter p tr).

(** USB-redirection widgets created so far. *)
Definition usb_widgets (st : State) : nat := count is_usb_widget_new (trace st).

(** Display surfaces created so far for channel id [id] of session [s]. *)
Definition displays (s : handle) (id : Z) (st : State) : nat :=
  count (is_display_new s id) (trace st).

Definition last_call (acc : option handle) (c : call) : option handle :=
  match c with c_spice_session_new s => Some s | _ => acc end.

(** The session returned by the most recent [spice_session_new], if any. *)
Definition last_session (tr : list call) : option handle :=
  fold_left last_call tr None.

(** The value of property "uri" of each session at the moment
    [spice_session_connect] is called on it, one entry per connect call. *)
Fixpoint targets (uri : handle -> option string) (tr : list call) : list (option string) :=
  match tr with
  | [] => []
  | c_g_object_set_property s name value :: tr' =>
      if String.eqb name "uri"
      then targets (fun s' => if N.eqb s' s then Some value else uri s') tr'
      else targets uri tr'
  | c_spice_session_connect s :: tr' => uri s :: targets uri tr'
  | _ :: tr' => targets uri tr'
  end.

Definition connect_targets (tr : list call) : list (option string) :=
  targets (fun _ => None) tr.

(** The states after each callback, written out. *)

(** The calls of [activate], lines 44-58, when the constructors return
    [w] and then [s]. *)
Definition activate_calls (w s : handle) : list call :=
  [c_gtk_application_window_new w;
   c_gtk_window_set_title w "VM Viewer";
   c_gtk_window_set_default_size w 800 600;
   c_g_signal_connect (obj_widget w) "destroy" cb_onClose;
   c_spice_session_new s;
   c_g_signal_connect (obj_session s) "channel-new" cb_newChannel;
   c_g_object_set_property s "uri" session_uri;
   c_spice_session_connect s].

Definition activate_post (st : State) : State :=
  let w := next_handle st in
  let s := N.succ w in
  mkState (Some w) (Some s)
    (connections st ++ [mkConn (obj_widget w) "destroy" cb_onClose;
                        mkConn (obj_session s) "channel-new" cb_newChannel])
    (N.succ s)
    (trace st ++ activate_calls w s).

(** The calls of the Display branch of [newChannel], lines 22 and 27-38. *)
Definition display_calls (win : option handle) (n : handle) (s : handle)
    (id : Z) : list call :=
  [c_printf_channel 2;
   c_spice_display_new s id n;
   c_gtk_container_add win n;
   c_gtk_widget_show_all win;
   c_gtk_window_new (N.succ n);
   c_gtk_window_set_title (N.succ n) "USB redirection";
   c_spice_usb_device_widget_new s "%s %s %s at %d-%d" (N.succ (N.succ n));
   c_gtk_container_add (Some (N.succ n)) (N.succ (N.succ n));
   c_gtk_widget_show_all (Some (N.succ n))].

Definition display_post (s : handle) (c : SpiceChannel) (st : State) : State :=
  mkState (window st) (spiceSession st) (connections st)
    (N.succ (N.succ (N.succ (next_handle st))))
    (trace st ++ display_calls (window st) (next_handle st) s (channel_id c)).

(** The calls of the Main branch of [newChannel], lines 22 and 25. *)
Definition main_channel_calls (c : SpiceChannel) : list call :=
  [c_printf_channel 1;
   c_g_signal_connect (obj_channel c) "channel-event" cb_channelEvent].

Definition main_channel_post (c : SpiceChannel) (st : State) : State :=
  mkState (window st) (spiceSession st)
    (connections st ++ [mkConn (obj_channel c) "channel-event" cb_channelEvent])
    (next_handle st)
    (trace st ++ main_channel_calls c).

(** The calls of one run of [channelEvent] on a connect error, when [onClose]
    is the handler of "destroy" of the window. *)
Definition teardown_calls (st : State) : list call :=
  [c_printf "SPICE_CHANNEL_ERROR_CONNECT\n";
   c_g_signal_emit_by_name (window st) "destroy";
   c_spice_session_disconnect (spiceSession st)].

(** ** Reachable states *)

(** The connections [main.c] makes: lines 66, 47, 51 and 25. *)
Inductive conn_shape : connection -> Prop :=
| shape_activate :
    conn_shape (mkConn obj_app "activate" cb_activate)
| shape_destroy (w : handle) :
    conn_shape (mkConn (obj_widget w) "destroy" cb_onClose)
| shape_channel_new (s : handle) :
    conn_shape (mkConn (obj_session s) "channel-new" cb_newChannel)
| shape_channel_event (c : SpiceChannel) :
    channel_type c = 1 ->
    conn_shape (mkConn (obj_channel c) "channel-event" cb_channelEvent).

(** Before the first activation both globals are NULL and nothing but
    [activate] is connected; afterwards both point to objects the program
    made. *)
Definition globals_ok (st : State) : Prop :=
  (window st = None /\ spiceSession st = None /\
   (forall w, main_window w (trace st) = false) /\
   (forall s, session_made s (trace st) = false) /\
   (forall c, attached c st = 0%nat))
  \/
  (exists w s, window st = Some w /\ spiceSession st = Some s /\
               main_window w (trace st) = true /\
               session_made s (trace st) = true).

(** What holds of every state the program can be in. *)
Record Inv (st : State) : Prop := mkInv {
  inv_shape : Forall conn_shape (connections st);
  inv_app : handlers obj_app "activate" st = [cb_activate];
  inv_destroy : forall w,
      handlers (obj_widget w) "destroy" st =
      if main_window w (trace st) then [cb_onClose] else [];
  inv_channel_new : forall s,
      handlers (obj_session s) "channel-new" st =
      if session_made s (trace st) then [cb_newChannel] else [];
  inv_fresh_window : forall w,
      main_window w (trace st) = true -> (w < next_handle st)%N;
  inv_fresh_session : forall s,
      session_made s (trace st) = true -> (s < next_handle st)%N;
  inv_globals : globals_ok st
}.

(** What [deliver] does in a reachable state, event by event. *)
Definition step_post (ev : event) (st : State) : State :=
  match ev with
  | ev_activate => activate_post st
  | ev_destroy w =>
      if main_window w (trace st)
      then log [c_spice_session_disconnect (spiceSession st)] st
      else st
  | ev_channel_new s c =>
      if session_made s (trace st) then
        if channel_type c =? 1 then main_channel_post c st
        else if channel_type c =? 2 then display_post s c st
        else log [c_printf_channel (channel_type c)] st
      else st
  | ev_channel_event c e =>
      if is_error_connect e
      then log (List.concat (repeat (teardown_calls st) (attached c st))) st
      else st
  end.

(** The calls an event adds to the trace in a reachable state. *)
Definition step_calls (ev : event) (st : State) : list call :=
  match ev with
  | ev_activate => activate_calls (next_handle st) (N.succ (next_handle st))
  | ev_destroy w =>
      if main_window w (trace st)
      then [c_spice_session_disconnect (spiceSession st)]
      else []
  | ev_channel_new s c =>
      if session_made s (trace st) then
        if channel_type c =? 1 then main_channel_calls c
        else if channel_type c =? 2
             then display_calls (window st) (next_handle st) s (channel_id c)
             else [c_printf_channel (channel_type c)]
      else []
  | ev_channel_event c e =>
      if is_error_connect e
      then List.concat (repeat (teardown_calls st) (attached c st))
      else []
  end.

(** A connection of [channelEvent] to a Main channel (line 25). *)
Definition channel_conn (x : connection) : Prop :=
  exists c, channel_type c = 1 /\
            x = mkConn (obj_channel c) "channel-event" cb_channelEvent.

Definition is_activate (ev : event) : bool :=
  match ev with ev_activate => true | _ => false end.

(** Number of activations among the delivered events. *)
Definition activations (evs : list event) : nat :=
  List.length (filter is_activate evs).

(** Channels and runs used in the examples. *)
Definition main_channel : SpiceChannel := mkChannel 100%N 1 0.
Definition display_channel : SpiceChannel := mkChannel 101%N 2 2.
Definition usbredir_channel (id : Z) : SpiceChannel := mkChannel (102 + Z.to_N id)%N 9 id.

(** One activation, then the Main channel and one Display channel announced. *)
Definition session_up : State :=
  main [] [ev_activate; ev_channel_new 1%N main_channel;
           ev_channel_new 1%N display_channel].

(** ** Further observations on traces *)

(** No NULL pointer is handed to the library in this call. *)
Definition no_null (c : call) : bool :=
  match c with
  | c_g_signal_emit_by_name None _ => false
  | c_gtk_container_add None _ => false
  | c_gtk_widget_show_all None => false
  | c_spice_session_disconnect None => false
  | _ => true
  end.

Definition is_connect (s : handle) (c : call) : bool :=
  match c with c_spice_session_connect s' => N.eqb s s' | _ => false end.

Definition is_set_uri (s : handle) (c : call) : bool :=
  match c with
  | c_g_object_set_property s' name _ => N.eqb s s' && String.eqb name "uri"
  | _ => false
  end.

Definition is_any_display_new (c : call) : bool :=
  match c with c_spice_display_new _ _ _ => true | _ => false end.

Definition is_any_window_new (c : call) : bool :=
  match c with c_gtk_window_new _ => true | _ => false end.

(** [u] is one of the three objects [newChannel] makes for a Display
    channel: the display, the USB window or the USB widget. *)
Definition is_channel_widget (u : handle) (c : call) : bool :=
  match c with
  | c_spice_display_new _ _ d => N.eqb u d
  | c_gtk_window_new w => N.eqb u w
  | c_spice_usb_device_widget_new _ _ x => N.eqb u x
  | _ => false
  end.

Definition channel_widget (u : handle) (tr : list call) : bool :=
  existsb (is_channel_widget u) tr.

(** The objects of [newChannel] are allocated, and none of them is a main
    window. *)
Definition widgets_apart (st : State) : Prop :=
  forall u, channel_widget u (trace st) = true ->
            (u < next_handle st)%N /\ main_window u (trace st) = false.

(** Each session was created, given its uri and connected the same number of
    times: once if the program made it, never otherwise. *)
Definition session_once (s : handle) (tr : list call) : Prop :=
  let b := if session_made s tr then 1%nat else 0%nat in
  count (is_session_new s) tr = b /\
  count (is_set_uri s) tr = b /\
  count (is_connect s) tr = b.

(** Two activations, with the Main channel of the first session announced
    in between. *)
Definition activated_twice : State :=
  main [] [ev_activate; ev_channel_new 1%N main_channel; ev_activate].

(** * Basic facts *)

(** Unfold the monad and the library calls on a state given by its fields,
    and normalise the trace. *)
Ltac run_calls :=
  cbv [bind ret exec emit fresh get_window get_spiceSession set_window
       set_spiceSession printf printf_channel g_signal_connect
       gtk_application_window_new gtk_window_new gtk_window_set_title
       gtk_window_set_default_size gtk_container_add gtk_widget_show_all
       spice_session_new g_object_set_property spice_session_connect
       spice_session_disconnect spice_display_new spice_usb_device_widget_new
       window spiceSession connections next_handle trace fst snd];
  rewrite <- ?app_assoc; cbn [app].

Lemma log_nil st : log [] st = st.
Proof. destruct st; unfold log; cbn. now rewrite app_nil_r. Qed.

Lemma new_calls_app st st' (d : list call) : trace st' = trace st ++ d -> new_calls st st' = d.
Proof.
  intros H. unfold new_calls. rewrite H, skipn_app, skipn_all, Nat.sub_diag.
  reflexivity.
Qed.

Lemma onClose_eq st :
  onClose st = (tt, log [c_spice_session_disconnect (spiceSession st)] st).
Proof. reflexivity. Qed.

Lemma activate_eq st : activate st = (tt, activate_post st).
Proof.
  destruct st. unfold activate, activate_post, activate_calls. run_calls.
  reflexivity.
Qed.

Lemma newChannel_main s c st :
  channel_type c = 1 -> newChannel s c st = (tt, main_channel_post c st).
Proof.
  intros H. destruct st. unfold newChannel. rewrite H. cbn [Z.eqb Pos.eqb].
  unfold main_channel_post, main_channel_calls. run_calls. reflexivity.
Qed.

Lemma newChannel_display s c st :
  channel_type c = 2 -> newChannel s c st = (tt, display_post s c st).
Proof.
  intros H. destruct st. unfold newChannel. rewrite H. cbn [Z.eqb Pos.eqb].
  unfold display_post, display_calls. run_calls. reflexivity.
Qed.

Lemma newChannel_other s c st :
  channel_type c <> 1 -> channel_type c <> 2 ->
  newChannel s c st = (tt, log [c_printf_channel (channel_type c)] st).
Proof.
  intros H1 H2. unfold newChannel.
  destruct (Z.eqb_spec (channel_type c) 1) as [E|_]; [contradiction|].
  destruct (Z.eqb_spec (channel_type c) 2) as [E|_]; [contradiction|].
  reflexivity.
Qed.

Lemma channelEvent_other c e st :
  e <> SPICE_CHANNEL_ERROR_CONNECT -> channelEvent c e st = (tt, st).
Proof. intros H. destruct e; try reflexivity. contradiction. Qed.

(** ** Equality tests *)

Lemma channel_eqb_eq a b : channel_eqb a b = true <-> a = b.
Proof.
  unfold channel_eqb. rewrite !andb_true_iff, !N.eqb_eq, !Z.eqb_eq.
  destruct a, b; cbn. split.
  - intros [[-> ->] ->]. reflexivity.
  - intros H. inversion H. auto.
Qed.

Lemma channel_eqb_refl a : channel_eqb a a = true.
Proof. now apply channel_eqb_eq. Qed.

(** ** Handlers and connections *)

Lemma handlers_snoc o sig st (l : list connection) :
  map conn_cb (filter (conn_matches o sig) (connections st ++ l)) =
  handlers o sig st ++ map conn_cb (filter (conn_matches o sig) l).
Proof. unfold handlers. now rewrite filter_app, map_app. Qed.

(** Only [channelEvent] is ever attached to "channel-event", and only on
    Main channels. *)
Lemma handlers_channel_event c (l : list connection) :
  Forall conn_shape l ->
  map conn_cb (filter (conn_matches (obj_channel c) "channel-event") l) =
  repeat cb_channelEvent
    (List.length (filter (conn_matches (obj_channel c) "channel-event") l)).
Proof.
  induction 1 as [|x l Hx _ IH]; [reflexivity|].
  cbn [filter]. destruct (conn_matches (obj_channel c) "channel-event" x) eqn:E.
  - cbn. rewrite IH. f_equal.
    destruct Hx; cbn in E; try discriminate. reflexivity.
  - exact IH.
Qed.

Lemma attached_eq c st :
  Inv st -> handlers (obj_channel c) "channel-event" st =
            repeat cb_channelEvent (attached c st).
Proof.
  intros H. unfold attached, handlers. rewrite length_map.
  apply handlers_channel_event, H.
Qed.

Lemma attached_in c st :
  In (mkConn (obj_channel c) "channel-event" cb_channelEvent) (connections st) ->
  (0 < attached c st)%nat.
Proof.
  intros H. unfold attached, handlers. rewrite length_map.
  assert (Hf : In (mkConn (obj_channel c) "channel-event" cb_channelEvent)
                 (filter (conn_matches (obj_channel c) "channel-event")
                         (connections st))).
  { apply filter_In. split; [exact H|].
    unfold conn_matches. cbn. now rewrite channel_eqb_refl. }
  destruct (filter _ _); [destruct Hf | cbn; lia].
Qed.

Lemma attached_main c st :
  Inv st -> (0 < attached c st)%nat -> channel_type c = 1.
Proof.
  intros [Hs _ _ _ _ _ _] H. unfold attached, handlers in H.
  rewrite length_map in H.
  destruct (filter _ _) as [|x l] eqn:E; [cbn in H; lia|].
  assert (Hx : In x (filter (conn_matches (obj_channel c) "channel-event")
                            (connections st))) by (rewrite E; now left).
  apply filter_In in Hx. destruct Hx as [Hin Hm].
  rewrite Forall_forall in Hs. specialize (Hs x Hin).
  destruct Hs; cbn in Hm; try discriminate.
  apply andb_true_iff in Hm. destruct Hm as [Hm _].
  apply channel_eqb_eq in Hm. now subst.
Qed.

(** ** What each event does in a reachable state *)

Lemma channelEvent_error c st (d : list call) w :
  window st = Some w ->
  handlers (obj_widget w) "destroy" st = [cb_onClose] ->
  channelEvent c SPICE_CHANNEL_ERROR_CONNECT (log d st) =
  (tt, log (d ++ teardown_calls st) st).
Proof.
  intros Hw Hh. destruct st as [win ses conns n tr].
  cbn [window] in Hw. subst win.
  unfold handlers in Hh. cbn [connections] in Hh.
  unfold channelEvent, g_signal_emit_by_name_destroy, log, teardown_calls.
  cbn [is_error_connect]. run_calls.
  unfold dispatch, handlers. cbn [connections]. rewrite Hh.
  cbn [map run_callbacks invoke_destroy]. unfold onClose. run_calls.
  reflexivity.
Qed.

Lemma run_channelEvent_error c st w k : forall d : list call,
  window st = Some w ->
  handlers (obj_widget w) "destroy" st = [cb_onClose] ->
  run_callbacks
    (map (invoke_channel_event c SPICE_CHANNEL_ERROR_CONNECT)
         (repeat cb_channelEvent k)) (log d st) =
  (tt, log (d ++ List.concat (repeat (teardown_calls st) k)) st).
Proof.
  induction k as [|k IH]; intros d Hw Hh.
  - cbn. now rewrite app_nil_r.
  - cbn [repeat map run_callbacks invoke_channel_event List.concat].
    unfold bind. rewrite (channelEvent_error c st d w Hw Hh).
    rewrite IH by assumption. now rewrite <- app_assoc.
Qed.

Lemma run_channelEvent_other c e st k :
  e <> SPICE_CHANNEL_ERROR_CONNECT ->
  run_callbacks (map (invoke_channel_event c e) (repeat cb_channelEvent k)) st =
  (tt, st).
Proof.
  intros He. induction k as [|k IH]; [reflexivity|].
  cbn [repeat map run_callbacks invoke_channel_event]. unfold bind.
  now rewrite channelEvent_other.
Qed.

Lemma attached_window c st :
  Inv st -> (0 < attached c st)%nat ->
  exists w s, window st = Some w /\ spiceSession st = Some s /\
              main_window w (trace st) = true /\
              session_made s (trace st) = true.
Proof.
  intros H Hk. destruct (inv_globals st H) as [(_ & _ & _ & _ & Hz)|Hg].
  - rewrite Hz in Hk. lia.
  - exact Hg.
Qed.

Theorem step_eq ev st : Inv st -> step ev st = step_post ev st.
Proof.
  intros H. destruct ev as [|w|s c|c e]; unfold step, exec, deliver, dispatch.
  - rewrite (inv_app st H). cbn [map run_callbacks invoke_activate step_post].
    unfold bind. now rewrite activate_eq.
  - rewrite (inv_destroy st H). cbn [step_post].
    destruct (main_window w (trace st)); [|reflexivity].
    cbn [map run_callbacks invoke_destroy]. unfold bind.
    now rewrite onClose_eq.
  - rewrite (inv_channel_new st H). cbn [step_post].
    destruct (session_made s (trace st)); [|reflexivity].
    cbn [map run_callbacks invoke_channel_new]. unfold bind.
    destruct (Z.eqb_spec (channel_type c) 1) as [E1|E1].
    { now rewrite newChannel_main. }
    destruct (Z.eqb_spec (channel_type c) 2) as [E2|E2].
    { now rewrite newChannel_display. }
    now rewrite newChannel_other.
  - rewrite (attached_eq c st H). cbn [step_post].
    destruct e; cbn [is_error_connect];
      try (rewrite run_channelEvent_other by discriminate; reflexivity).
    destruct (attached c st) as [|k] eqn:Ek.
    + cbn. now rewrite log_nil.
    + destruct (attached_window c st H) as (w & s & Hw & _ & Hm & _);
        [rewrite Ek; lia|].
      pose proof (inv_destroy st H w) as Hh. rewrite Hm in Hh.
      rewrite <- (log_nil st) at 1.
      rewrite (run_channelEvent_error c st w (S k) [] Hw Hh). reflexivity.
Qed.

(** ** The invariant is kept *)

Lemma main_window_app w (tr d : list call) :
  main_window w (tr ++ d) = main_window w tr || main_window w d.
Proof. apply existsb_app. Qed.

Lemma session_made_app s (tr d : list call) :
  session_made s (tr ++ d) = session_made s tr || session_made s d.
Proof. apply existsb_app. Qed.

Lemma filter_none {A} (f : A -> bool) (P : A -> Prop) (l : list A) :
  Forall P l -> (forall x, P x -> f x = false) -> filter f l = [].
Proof.
  intros Hl Hf. induction Hl as [|x l Hx _ IH]; [reflexivity|].
  cbn. now rewrite (Hf x Hx).
Qed.

(** A callback that allocates no window and no session, and connects
    nothing but [channelEvent] to Main channels, keeps the invariant. *)
Lemma Inv_extend st (lc : list connection) n' (d : list call) :
  Inv st ->
  Forall channel_conn lc ->
  (next_handle st <= n')%N ->
  (forall w, main_window w d = false) ->
  (forall s, session_made s d = false) ->
  (lc = [] \/ exists s, session_made s (trace st) = true) ->
  Inv (mkState (window st) (spiceSession st) (connections st ++ lc) n'
               (trace st ++ d)).
Proof.
  intros H Hlc Hn Hw Hs Hor.
  assert (Hnone : forall o sig, (forall c, o <> obj_channel c) ->
             filter (conn_matches o sig) lc = []).
  { intros o sig Ho. apply (filter_none _ channel_conn); [exact Hlc|].
    intros x (c & _ & ->). unfold conn_matches. cbn.
    destruct o; try reflexivity. now destruct (Ho c0). }
  constructor; cbn [window spiceSession connections next_handle trace].
  - apply Forall_app. split; [apply H|].
    eapply Forall_impl; [|exact Hlc].
    intros x (c & Hc & ->). now constructor.
  - unfold handlers. cbn [connections]. rewrite handlers_snoc, Hnone by discriminate.
    cbn. rewrite app_nil_r. apply H.
  - intros w. unfold handlers. cbn [connections trace].
    rewrite handlers_snoc, Hnone by discriminate.
    cbn. rewrite app_nil_r, main_window_app, Hw, orb_false_r. apply H.
  - intros s. unfold handlers. cbn [connections trace].
    rewrite handlers_snoc, Hnone by discriminate.
    cbn. rewrite app_nil_r, session_made_app, Hs, orb_false_r. apply H.
  - intros w. rewrite main_window_app, Hw, orb_false_r. intros Hm.
    apply (inv_fresh_window st H) in Hm. lia.
  - intros s. rewrite session_made_app, Hs, orb_false_r. intros Hm.
    apply (inv_fresh_session st H) in Hm. lia.
  - destruct (inv_globals st H)
      as [(Hwn & Hsn & Hnw & Hno & Hz)|(w & s & Hwn & Hsn & Hmw & Hms)].
    + left. cbn [window spiceSession trace]. repeat split; try assumption.
      * intros w. now rewrite main_window_app, Hw, Hnw.
      * intros s. now rewrite session_made_app, Hs, Hno.
      * intros c. destruct Hor as [->|(s & Hs')].
        -- unfold attached, handlers in *. cbn [connections].
           rewrite app_nil_r. apply Hz.
        -- now rewrite Hno in Hs'.
    + right. exists w, s. cbn [window spiceSession trace].
      rewrite main_window_app, session_made_app, Hmw, Hms. auto.
Qed.

Lemma Inv_log st (d : list call) :
  Inv st ->
  (forall w, main_window w d = false) ->
  (forall s, session_made s d = false) ->
  Inv (log d st).
Proof.
  intros H Hw Hs. unfold log. rewrite <- (app_nil_r (connections st)).
  apply Inv_extend; auto. lia.
Qed.

Lemma teardown_no_window st k w :
  main_window w (List.concat (repeat (teardown_calls st) k)) = false.
Proof. induction k as [|k IH]; [reflexivity|exact IH]. Qed.

Lemma teardown_no_session st k s :
  session_made s (List.concat (repeat (teardown_calls st) k)) = false.
Proof. induction k as [|k IH]; [reflexivity|exact IH]. Qed.

Lemma Inv_activate st : Inv st -> Inv (activate_post st).
Proof.
  intros H. set (n := next_handle st).
  assert (Hfw : main_window n (trace st) = false).
  { destruct (main_window n (trace st)) eqn:E; [|reflexivity].
    apply (inv_fresh_window st H) in E. unfold n in E. lia. }
  assert (Hfs : session_made (N.succ n) (trace st) = false).
  { destruct (session_made (N.succ n) (trace st)) eqn:E; [|reflexivity].
    apply (inv_fresh_session st H) in E. unfold n in E. lia. }
  unfold activate_post. fold n.
  constructor; cbn [window spiceSession connections next_handle trace].
  - apply Forall_app. split; [apply H|]. repeat constructor.
  - unfold handlers. cbn [connections]. rewrite handlers_snoc. cbn.
    rewrite app_nil_r. apply H.
  - intros w. unfold handlers. cbn [connections trace].
    rewrite handlers_snoc, main_window_app, (inv_destroy st H).
    unfold conn_matches. cbn.
    rewrite !orb_false_r, andb_true_r, (N.eqb_sym w n).
    destruct (N.eqb_spec n w) as [<-|Hne].
    + now rewrite Hfw.
    + cbn. now rewrite app_nil_r, orb_false_r.
  - intros s. unfold handlers. cbn [connections trace].
    rewrite handlers_snoc, session_made_app, (inv_channel_new st H).
    unfold conn_matches. cbn.
    rewrite !orb_false_r, andb_true_r, (N.eqb_sym s (N.succ n)).
    destruct (N.eqb_spec (N.succ n) s) as [<-|Hne].
    + now rewrite Hfs.
    + cbn. now rewrite app_nil_r, orb_false_r.
  - intros w. rewrite main_window_app. cbn. rewrite !orb_false_r.
    intros Hm. apply orb_true_iff in Hm. destruct Hm as [Hm|Hm].
    + apply (inv_fresh_window st H) in Hm. fold n in Hm. lia.
    + apply N.eqb_eq in Hm. lia.
  - intros s. rewrite session_made_app. cbn. rewrite !orb_false_r.
    intros Hm. apply orb_true_iff in Hm. destruct Hm as [Hm|Hm].
    + apply (inv_fresh_session st H) in Hm. fold n in Hm. lia.
    + apply N.eqb_eq in Hm. lia.
  - right. exists n, (N.succ n). cbn [window spiceSession trace].
    rewrite main_window_app, session_made_app. cbn.
    rewrite !N.eqb_refl, !orb_true_r. auto.
Qed.

Theorem Inv_step ev st : Inv st -> Inv (step ev st).
Proof.
  intros H. rewrite (step_eq ev st H).
  destruct ev as [|w|s c|c e]; cbn [step_post].
  - now apply Inv_activate.
  - destruct (main_window w (trace st)); [|exact H].
    now apply Inv_log.
  - destruct (session_made s (trace st)) eqn:Es; [|exact H].
    destruct (Z.eqb_spec (channel_type c) 1) as [E1|E1].
    { unfold main_channel_post. apply Inv_extend; auto.
      - repeat constructor. now exists c.
      - lia.
      - right. now exists s. }
    destruct (channel_type c =? 2).
    { unfold display_post. rewrite <- (app_nil_r (connections st)).
      apply Inv_extend; auto. lia. }
    now apply Inv_log.
  - destruct (is_error_connect e); [|exact H].
    apply Inv_log; [exact H| |].
    + intros w. apply teardown_no_window.
    + intros s. apply teardown_no_session.
Qed.

Lemma Inv_setup : Inv (exec main_setup initial).
Proof.
  constructor; try reflexivity; try discriminate.
  - repeat constructor.
  - left. repeat split; reflexivity.
Qed.

Lemma Inv_run evs : forall st, Inv st -> Inv (run evs st).
Proof.
  induction evs as [|ev evs IH]; intros st H; [exact H|].
  cbn. apply IH. now apply Inv_step.
Qed.

(** Every state of every execution satisfies the invariant. *)
Theorem Inv_main argv evs : Inv (main argv evs).
Proof. apply Inv_run, Inv_setup. Qed.

(** ** Traces of steps *)

Lemma step_trace ev st :
  Inv st -> trace (step ev st) = trace st ++ step_calls ev st.
Proof.
  intros H. rewrite (step_eq ev st H).
  destruct ev as [|w|s c|c e]; cbn [step_post step_calls].
  - reflexivity.
  - destruct (main_window w (trace st)); [reflexivity|now rewrite app_nil_r].
  - destruct (session_made s (trace st)); [|now rewrite app_nil_r].
    destruct (channel_type c =? 1); [reflexivity|].
    destruct (channel_type c =? 2); reflexivity.
  - destruct (is_error_connect e); [reflexivity|now rewrite app_nil_r].
Qed.

Lemma step_next_handle ev st :
  Inv st -> (next_handle st <= next_handle (step ev st))%N.
Proof.
  intros H. rewrite (step_eq ev st H).
  destruct ev as [|w|s c|c e]; cbn [step_post].
  - cbn. lia.
  - destruct (main_window w (trace st)); cbn; lia.
  - destruct (session_made s (trace st)); [|lia].
    destruct (channel_type c =? 1); [cbn; lia|].
    destruct (channel_type c =? 2); cbn; lia.
  - destruct (is_error_connect e); cbn; lia.
Qed.

Lemma new_calls_step ev st :
  Inv st -> new_calls st (step ev st) = step_calls ev st.
Proof. intros H. apply new_calls_app, step_trace, H. Qed.

(** ** Connection targets *)

Lemma targets_app (tr2 : list call) l2 :
  (forall uri, targets uri tr2 = l2) ->
  forall (tr1 : list call) uri, targets uri (tr1 ++ tr2) = targets uri tr1 ++ l2.
Proof.
  intros H2. induction tr1 as [|c tr1 IH]; intros uri; [apply H2|].
  destruct c; cbn [app targets]; try apply IH.
  - destruct (String.eqb property_name "uri"); apply IH.
  - now rewrite IH.
Qed.

Lemma targets_teardown st k uri :
  targets uri (List.concat (repeat (teardown_calls st) k)) = [].
Proof. induction k as [|k IH]; [reflexivity|exact IH]. Qed.

(** Only [activate] sets a uri or connects, and it connects the session it
    has just given the fixed uri. *)
Lemma targets_step ev st uri :
  targets uri (step_calls ev st) =
  if is_activate ev then [Some session_uri] else [].
Proof.
  destruct ev as [|w|s c|c e]; cbn [step_calls is_activate].
  - cbn. now rewrite N.eqb_refl.
  - destruct (main_window w (trace st)); reflexivity.
  - destruct (session_made s (trace st)); [|reflexivity].
    destruct (channel_type c =? 1); [reflexivity|].
    destruct (channel_type c =? 2); reflexivity.
  - destruct (is_error_connect e); [apply targets_teardown|reflexivity].
Qed.

Lemma targets_run evs : forall st uri,
  Inv st ->
  targets uri (trace (run evs st)) =
  targets uri (trace st) ++ repeat (Some session_uri) (activations evs).
Proof.
  induction evs as [|ev evs IH]; intros st uri H.
  - cbn. now rewrite app_nil_r.
  - cbn [run]. rewrite IH by now apply Inv_step.
    rewrite (step_trace ev st H).
    rewrite (targets_app (step_calls ev st) _ (fun u => targets_step ev st u)).
    rewrite <- app_assoc. f_equal.
    unfold activations. cbn [filter]. destruct (is_activate ev); reflexivity.
Qed.

(** * The claims *)

(** C8.  Whatever the command line and whatever events arrive, every call of
    [spice_session_connect] is made on a session whose "uri" property holds
    the fixed string "spice://localhost?port=5900" at that moment; there is
    one such call per activation of the application, and no other. *)
Theorem C8_connect_target_fixed (argv : list string) (evs : list event) :
  connect_targets (trace (main argv evs)) =
  repeat (Some "spice://localhost?port=5900") (activations evs).
Proof.
  unfold connect_targets, main.
  rewrite targets_run by apply Inv_setup. reflexivity.
Qed.

(** ** Destroying the main window *)

Lemma emit_destroy_eq w st :
  handlers (obj_widget w) "destroy" st = [cb_onClose] ->
  g_signal_emit_by_name_destroy (Some w) st =
  (tt, log [c_g_signal_emit_by_name (Some w) "destroy";
            c_spice_session_disconnect (spiceSession st)] st).
Proof.
  intros Hh. destruct st as [win ses conns n tr].
  unfold handlers in Hh. cbn [connections] in Hh.
  unfold g_signal_emit_by_name_destroy, log. run_calls.
  unfold dispatch, handlers. cbn [connections]. rewrite Hh.
  cbn [map run_callbacks invoke_destroy]. unfold onClose. run_calls.
  reflexivity.
Qed.

Lemma main_window_globals w st :
  Inv st -> main_window w (trace st) = true ->
  exists w0 s, window st = Some w0 /\ spiceSession st = Some s /\
               main_window w0 (trace st) = true /\
               session_made s (trace st) = true.
Proof.
  intros H Hm. destruct (inv_globals st H) as [(_ & _ & Hnw & _)|Hg].
  - now rewrite Hnw in Hm.
  - exact Hg.
Qed.

(** C10.  In every reachable state, for every window [w] the program made
    with [gtk_application_window_new]: delivering "destroy" of [w] (the
    user closes it) runs [onClose] exactly once, which calls
    [spice_session_disconnect] on the session and does nothing else; and
    the emission [g_signal_emit_by_name (window, "destroy")] that
    [channelEvent] performs on a connect error likewise ends in exactly one
    [spice_session_disconnect] on the session. *)
Theorem C10_destroy_disconnects
    (argv : list string) (evs : list event) (w : handle) :
  main_window w (trace (main argv evs)) = true ->
  exists w0 s,
    window (main argv evs) = Some w0 /\
    spiceSession (main argv evs) = Some s /\
    step (ev_destroy w) (main argv evs) =
      log [c_spice_session_disconnect (Some s)] (main argv evs) /\
    exec (g_signal_emit_by_name_destroy (window (main argv evs))) (main argv evs) =
      log [c_g_signal_emit_by_name (Some w0) "destroy";
           c_spice_session_disconnect (Some s)] (main argv evs).
Proof.
  intros Hm. set (st := main argv evs) in *.
  assert (H : Inv st) by apply Inv_main.
  destruct (main_window_globals w st H Hm) as (w0 & s & Hw & Hs & Hm0 & _).
  exists w0, s. repeat split; try assumption.
  - rewrite (step_eq _ st H). cbn [step_post]. now rewrite Hm, Hs.
  - pose proof (inv_destroy st H w0) as Hh. rewrite Hm0 in Hh.
    rewrite Hw. unfold exec. rewrite (emit_destroy_eq w0 st Hh), Hs.
    reflexivity.
Qed.

(** After one activation window 0 is the main window and session 1 the session. *)
Lemma C10_witness :
  exists w0 s,
    window (main [] [ev_activate]) = Some w0 /\
    spiceSession (main [] [ev_activate]) = Some s /\
    step (ev_destroy 0%N) (main [] [ev_activate]) =
      log [c_spice_session_disconnect (Some s)] (main [] [ev_activate]) /\
    exec (g_signal_emit_by_name_destroy (window (main [] [ev_activate])))
         (main [] [ev_activate]) =
      log [c_g_signal_emit_by_name (Some w0) "destroy";
           c_spice_session_disconnect (Some s)] (main [] [ev_activate]).
Proof.
  apply (C10_destroy_disconnects [] [ev_activate] 0%N).
  reflexivity.
Defined.

(** ** Channel events *)

Lemma attached_not_main c st :
  Inv st -> channel_type c <> 1 -> attached c st = 0%nat.
Proof.
  intros H Hc. destruct (attached c st) as [|k] eqn:Ek; [reflexivity|].
  destruct Hc. apply (attached_main c st H). lia.
Qed.

(** C9.  In every reachable state: (1) every connection whose handler is
    [channelEvent] is a connection to "channel-event" of a channel of type 1;
    (2) [channelEvent], run on any event other than the connect error,
    returns the state it was given; (3) hence delivering a channel event
    leaves the whole program state (globals, connections, allocator, trace)
    as it was whenever the channel is not of type 1 or the event is not the
    connect error. *)
Theorem C9_channel_event_frame
    (argv : list string) (evs : list event) (c : SpiceChannel)
    (e : SpiceChannelEvent) :
  (forall x, In x (connections (main argv evs)) ->
             conn_cb x = cb_channelEvent ->
             exists c', channel_type c' = 1 /\
                        x = mkConn (obj_channel c') "channel-event" cb_channelEvent)
  /\ (e <> SPICE_CHANNEL_ERROR_CONNECT ->
      forall st0, channelEvent c e st0 = (tt, st0))
  /\ (channel_type c <> 1 \/ e <> SPICE_CHANNEL_ERROR_CONNECT ->
      step (ev_channel_event c e) (main argv evs) = main argv evs).
Proof.
  set (st := main argv evs).
  assert (H : Inv st) by apply Inv_main.
  split; [|split].
  - intros x Hin Hcb. pose proof (inv_shape st H) as Hs.
    rewrite Forall_forall in Hs. specialize (Hs x Hin).
    destruct Hs as [| | |c' Hc']; try discriminate. now exists c'.
  - intros He st0. destruct e; try reflexivity. contradiction.
  - intros Hor. rewrite (step_eq _ st H). cbn [step_post].
    destruct e; cbn [is_error_connect]; try reflexivity.
    destruct Hor as [Hc|He]; [|contradiction].
    rewrite (attached_not_main c st H Hc). apply log_nil.
Qed.

(** A close event on the Display channel of a running session changes nothing. *)
Lemma C9_witness :
  step (ev_channel_event display_channel SPICE_CHANNEL_CLOSED) session_up = session_up.
Proof.
  refine (proj2 (proj2 (C9_channel_event_frame []
            [ev_activate; ev_channel_new 1%N main_channel;
             ev_channel_new 1%N display_channel]
            display_channel SPICE_CHANNEL_CLOSED)) _).
  right. discriminate.
Defined.

(** C7 (as the program has it).  In every reachable state, delivering channel
    event [e] on channel [c] issues a [spice_session_disconnect] if and only
    if [channelEvent] is attached to [c] and [e] is the connect error; the
    handler is attached to channels of type 1 only; and in every other case
    the delivery leaves the whole program state unchanged: nothing is
    reported. *)
Theorem C7_teardown_only_on_main_connect_error
    (argv : list string) (evs : list event) (c : SpiceChannel)
    (e : SpiceChannelEvent) :
  (existsb is_disconnect
     (new_calls (main argv evs) (step (ev_channel_event c e) (main argv evs))) = true
   <-> (0 < attached c (main argv evs))%nat /\ e = SPICE_CHANNEL_ERROR_CONNECT)
  /\ ((0 < attached c (main argv evs))%nat -> channel_type c = 1)
  /\ (attached c (main argv evs) = 0%nat \/ e <> SPICE_CHANNEL_ERROR_CONNECT ->
      step (ev_channel_event c e) (main argv evs) = main argv evs).
Proof.
  set (st := main argv evs).
  assert (H : Inv st) by apply Inv_main.
  split; [|split].
  - rewrite (new_calls_step _ st H). cbn [step_calls].
    destruct e; cbn [is_error_connect existsb];
      try (split; [discriminate | intros [_ He]; discriminate He]).
    destruct (attached c st) as [|k].
    + cbn. split; [discriminate | intros [Hk _]; lia].
    + cbn. split; [intros _; split; [lia|reflexivity] | reflexivity].
  - apply attached_main, H.
  - intros Hor. rewrite (step_eq _ st H). cbn [step_post].
    destruct e; cbn [is_error_connect]; try reflexivity.
    destruct Hor as [Hz|He]; [|contradiction].
    rewrite Hz. apply log_nil.
Qed.

(** The connect error on the Main channel of a running session. *)
Lemma C7_witness :
  existsb is_disconnect
    (new_calls session_up
       (step (ev_channel_event main_channel SPICE_CHANNEL_ERROR_CONNECT) session_up))
  = true.
Proof.
  refine (proj2 (proj1 (C7_teardown_only_on_main_connect_error []
            [ev_activate; ev_channel_new 1%N main_channel;
             ev_channel_new 1%N display_channel]
            main_channel SPICE_CHANNEL_ERROR_CONNECT)) _).
  split; [vm_compute; lia | reflexivity].
Defined.

(** A running session.  The connect error on its Display channel is a
    connection-level error, yet the state is unchanged: no teardown.  An
    I/O error on its Main channel issues no call at all: it neither tears
    the session down nor is it reported.  The connect error on the Main
    channel is the one event that tears down. *)
Lemma C7_counterexample :
  step (ev_channel_event display_channel SPICE_CHANNEL_ERROR_CONNECT) session_up
    = session_up
  /\ new_calls session_up
       (step (ev_channel_event main_channel SPICE_CHANNEL_ERROR_IO) session_up)
    = []
  /\ new_calls session_up
       (step (ev_channel_event main_channel SPICE_CHANNEL_ERROR_CONNECT) session_up)
    = [c_printf "SPICE_CHANNEL_ERROR_CONNECT\n";
       c_g_signal_emit_by_name (Some 0%N) "destroy";
       c_spice_session_disconnect (Some 1%N)].
Proof. repeat split; vm_compute; reflexivity. Qed.

(** ** Channel announcements *)

Lemma count_app p (tr d : list call) :
  count p (tr ++ d) = (count p tr + count p d)%nat.
Proof. unfold count. now rewrite filter_app, length_app. Qed.

Lemma count_teardown p st k :
  p (c_printf "SPICE_CHANNEL_ERROR_CONNECT\n") = false ->
  p (c_g_signal_emit_by_name (window st) "destroy") = false ->
  p (c_spice_session_disconnect (spiceSession st)) = false ->
  count p (List.concat (repeat (teardown_calls st) k)) = 0%nat.
Proof.
  intros H1 H2 H3. induction k as [|k IH]; [reflexivity|].
  cbn [repeat List.concat teardown_calls app]. unfold count in *.
  cbn [filter]. now rewrite H1, H2, H3.
Qed.

Lemma session_made_step s ev st :
  Inv st -> session_made s (trace st) = true ->
  session_made s (trace (step ev st)) = true.
Proof.
  intros H Hs. now rewrite (step_trace ev st H), session_made_app, Hs.
Qed.

Lemma displays_channel_new s c st :
  Inv st -> session_made s (trace st) = true ->
  displays s (channel_id c) (step (ev_channel_new s c) st) =
  (displays s (channel_id c) st + if (channel_type c =? 2)%Z then 1 else 0)%nat.
Proof.
  intros H Hs. unfold displays.
  rewrite (step_trace _ st H), count_app. f_equal.
  cbn [step_calls]. rewrite Hs.
  destruct (Z.eqb_spec (channel_type c) 1) as [E|_].
  { rewrite E. reflexivity. }
  destruct (channel_type c =? 2); [|reflexivity].
  unfold count. cbn. now rewrite N.eqb_refl, Z.eqb_refl.
Qed.

Lemma attached_channel_new s c st :
  Inv st -> session_made s (trace st) = true ->
  attached c (step (ev_channel_new s c) st) =
  (attached c st + if (channel_type c =? 1)%Z then 1 else 0)%nat.
Proof.
  intros H Hs. rewrite (step_eq _ st H). cbn [step_post]. rewrite Hs.
  destruct (channel_type c =? 1).
  - unfold attached, handlers, main_channel_post. cbn [connections].
    rewrite filter_app, map_app, length_app.
    unfold conn_matches. cbn. now rewrite channel_eqb_refl.
  - destruct (channel_type c =? 2);
      unfold attached, handlers, display_post, log; cbn [connections]; lia.
Qed.

(** C2 (as the program has it).  No USB-redirection widget exists before
    the first event, and an event creates one exactly when it is a
    channel-new of a type 2 (Display) channel announced by a session of the
    program; every other event, channel-new of any other type included,
    creates none.  So the number of widgets is the number of Display
    announcements. *)
Theorem C2_usb_widget_per_display_announcement
    (argv : list string) (evs : list event) (ev : event) :
  usb_widgets (main argv []) = 0%nat /\
  usb_widgets (step ev (main argv evs)) =
  (usb_widgets (main argv evs) +
   match ev with
   | ev_channel_new s c =>
       if session_made s (trace (main argv evs)) && (channel_type c =? 2)%Z
       then 1 else 0
   | _ => 0
   end)%nat.
Proof.
  split; [reflexivity|].
  set (st := main argv evs).
  assert (H : Inv st) by apply Inv_main.
  unfold usb_widgets. rewrite (step_trace ev st H), count_app. f_equal.
  destruct ev as [|w|s c|c e]; cbn [step_calls].
  - reflexivity.
  - destruct (main_window w (trace st)); reflexivity.
  - destruct (session_made s (trace st)); [|reflexivity].
    cbn [andb].
    destruct (Z.eqb_spec (channel_type c) 1) as [E|_].
    { rewrite E. reflexivity. }
    destruct (channel_type c =? 2); reflexivity.
  - destruct (is_error_connect e); [|reflexivity].
    now apply count_teardown.
Qed.

(** Three device-redirection channels (type 9, SPICE_CHANNEL_USBREDIR)
    create no widget; two Display channels create two. *)
Lemma C2_counterexample :
  usb_widgets (main [] [ev_activate;
                        ev_channel_new 1%N (usbredir_channel 0);
                        ev_channel_new 1%N (usbredir_channel 1);
                        ev_channel_new 1%N (usbredir_channel 2)]) = 0%nat
  /\ usb_widgets (main [] [ev_activate;
                           ev_channel_new 1%N display_channel;
                           ev_channel_new 1%N (mkChannel 103%N 2 3)]) = 2%nat.
Proof. split; reflexivity. Qed.

(** C3 (as the program has it).  There is no registry: announcing the same
    channel twice is handled twice.  For a Display channel (type 2) two
    display surfaces are created for its (session, id), and for a Main
    channel (type 1) [channelEvent] is attached twice; the second
    announcement is neither refused nor dropped. *)
Theorem C3_announced_twice_handled_twice
    (argv : list string) (evs : list event) (s : handle) (c : SpiceChannel) :
  session_made s (trace (main argv evs)) = true ->
  displays s (channel_id c)
    (step (ev_channel_new s c) (step (ev_channel_new s c) (main argv evs))) =
  (displays s (channel_id c) (main argv evs)
   + if (channel_type c =? 2)%Z then 2 else 0)%nat
  /\ attached c
       (step (ev_channel_new s c) (step (ev_channel_new s c) (main argv evs))) =
     (attached c (main argv evs) + if (channel_type c =? 1)%Z then 2 else 0)%nat.
Proof.
  intros Hs. set (st := main argv evs) in *.
  assert (H : Inv st) by apply Inv_main.
  assert (H' : Inv (step (ev_channel_new s c) st)) by now apply Inv_step.
  assert (Hs' : session_made s (trace (step (ev_channel_new s c) st)) = true)
    by now apply session_made_step.
  split.
  - rewrite displays_channel_new, displays_channel_new by assumption.
    destruct (channel_type c =? 2); lia.
  - rewrite attached_channel_new, attached_channel_new by assumption.
    destruct (channel_type c =? 1); lia.
Qed.

Lemma C3_witness :
  displays 1%N (channel_id display_channel)
    (step (ev_channel_new 1%N display_channel)
       (step (ev_channel_new 1%N display_channel) (main [] [ev_activate]))) =
  (displays 1%N (channel_id display_channel) (main [] [ev_activate])
   + if (channel_type display_channel =? 2)%Z then 2 else 0)%nat
  /\ attached display_channel
       (step (ev_channel_new 1%N display_channel)
          (step (ev_channel_new 1%N display_channel) (main [] [ev_activate]))) =
     (attached display_channel (main [] [ev_activate])
      + if (channel_type display_channel =? 1)%Z then 2 else 0)%nat.
Proof.
  apply (C3_announced_twice_handled_twice [] [ev_activate] 1%N display_channel).
  reflexivity.
Defined.

(** The same Display channel announced twice gives two display surfaces for
    its id, and the same Main channel announced twice has the handler twice. *)
Lemma C3_counterexample :
  displays 1%N 2 (main [] [ev_activate;
                           ev_channel_new 1%N display_channel;
                           ev_channel_new 1%N display_channel]) = 2%nat
  /\ attached main_channel (main [] [ev_activate;
                                     ev_channel_new 1%N main_channel;
                                     ev_channel_new 1%N main_channel]) = 2%nat.
Proof. split; reflexivity. Qed.

(** C4.  For a channel whose type is neither 1 nor 2, [newChannel] returns
    normally and its only effect is the diagnostic line: the globals, the
    connections and the allocator are as before and the trace has gained
    the one [printf].  Delivered in a reachable state, the announcement does
    exactly that when the session is one of the program, and nothing
    otherwise. *)
Theorem C4_unknown_channel_only_logged
    (argv : list string) (evs : list event) (s : handle) (c : SpiceChannel) :
  channel_type c <> 1 -> channel_type c <> 2 ->
  (forall st0, newChannel s c st0 =
               (tt, log [c_printf_channel (channel_type c)] st0))
  /\ step (ev_channel_new s c) (main argv evs) =
     if session_made s (trace (main argv evs))
     then log [c_printf_channel (channel_type c)] (main argv evs)
     else main argv evs.
Proof.
  intros H1 H2. split.
  - intros st0. unfold newChannel.
    destruct (Z.eqb_spec (channel_type c) 1) as [E|_]; [contradiction|].
    destruct (Z.eqb_spec (channel_type c) 2) as [E|_]; [contradiction|].
    reflexivity.
  - rewrite (step_eq _ _ (Inv_main argv evs)). cbn [step_post].
    destruct (Z.eqb_spec (channel_type c) 1) as [E|_]; [contradiction|].
    destruct (Z.eqb_spec (channel_type c) 2) as [E|_]; [contradiction|].
    reflexivity.
Qed.

(** A channel of type 9 announced by the session of a running program. *)
Lemma C4_witness :
  (forall st0, newChannel 1%N (usbredir_channel 0) st0 =
               (tt, log [c_printf_channel 9] st0))
  /\ step (ev_channel_new 1%N (usbredir_channel 0)) session_up =
     log [c_printf_channel 9] session_up.
Proof.
  refine (C4_unknown_channel_only_logged []
            [ev_activate; ev_channel_new 1%N main_channel;
             ev_channel_new 1%N display_channel]
            1%N (usbredir_channel 0) _ _);
    discriminate.
Defined.

(** C5 (as the program has it).  No handler is attached to a Display
    channel, so no event on it, the close event included, reaches the
    program: the state is unchanged, nothing is unregistered or disposed.
    A later announcement of the same channel by its session is still acted
    on and creates another display surface for its id. *)
Theorem C5_display_close_not_observed
    (argv : list string) (evs : list event) (s : handle) (c : SpiceChannel)
    (e : SpiceChannelEvent) :
  channel_type c = 2 ->
  session_made s (trace (main argv evs)) = true ->
  step (ev_channel_event c e) (main argv evs) = main argv evs
  /\ displays s (channel_id c)
       (step (ev_channel_new s c)
          (step (ev_channel_event c SPICE_CHANNEL_CLOSED) (main argv evs))) =
     S (displays s (channel_id c) (main argv evs)).
Proof.
  intros Hc Hs. set (st := main argv evs) in *.
  assert (H : Inv st) by apply Inv_main.
  assert (Hz : attached c st = 0%nat).
  { apply attached_not_main; [exact H|]. rewrite Hc. discriminate. }
  assert (Hframe : forall e', step (ev_channel_event c e') st = st).
  { intros e'. rewrite (step_eq _ st H). cbn [step_post]. rewrite Hz.
    destruct (is_error_connect e'); [apply log_nil|reflexivity]. }
  split; [apply Hframe|].
  rewrite Hframe, displays_channel_new, Hc by assumption. cbn. lia.
Qed.

Lemma C5_witness :
  step (ev_channel_event display_channel SPICE_CHANNEL_CLOSED) session_up = session_up
  /\ displays 1%N (channel_id display_channel)
       (step (ev_channel_new 1%N display_channel)
          (step (ev_channel_event display_channel SPICE_CHANNEL_CLOSED) session_up)) =
     S (displays 1%N (channel_id display_channel) session_up).
Proof.
  refine (C5_display_close_not_observed []
            [ev_activate; ev_channel_new 1%N main_channel;
             ev_channel_new 1%N display_channel]
            1%N display_channel SPICE_CHANNEL_CLOSED _ _);
    reflexivity.
Defined.

(** Display channel id 2 closes: no call is issued, and the channel
    announced again gets a second display surface. *)
Lemma C5_counterexample :
  new_calls session_up
    (step (ev_channel_event display_channel SPICE_CHANNEL_CLOSED) session_up) = []
  /\ displays 1%N 2 session_up = 1%nat
  /\ displays 1%N 2
       (step (ev_channel_new 1%N display_channel)
          (step (ev_channel_event display_channel SPICE_CHANNEL_CLOSED) session_up))
     = 2%nat.
Proof. repeat split; reflexivity. Qed.

(** C6 (as the program has it).  In every reachable state, whether or not
    any Main channel has reported anything, the announcement of a Display
    channel by a session of the program is acted on at once: the display
    surface and the USB window are created and shown within that delivery.
    The announcement of a channel of any other kind than Main and Display,
    device redirection included, is only logged at once.  Nothing is kept
    for later in either case: the open event of a channel changes nothing
    afterwards. *)
Theorem C6_display_attached_at_once
    (argv : list string) (evs : list event) (s : handle)
    (c c' d : SpiceChannel) :
  session_made s (trace (main argv evs)) = true ->
  channel_type c = 2 ->
  channel_type d <> 1 -> channel_type d <> 2 ->
  new_calls (main argv evs) (step (ev_channel_new s c) (main argv evs)) =
    display_calls (window (main argv evs)) (next_handle (main argv evs))
                  s (channel_id c)
  /\ step (ev_channel_event c' SPICE_CHANNEL_OPENED)
          (step (ev_channel_new s c) (main argv evs)) =
     step (ev_channel_new s c) (main argv evs)
  /\ step (ev_channel_new s d) (main argv evs) =
     log [c_printf_channel (channel_type d)] (main argv evs)
  /\ step (ev_channel_event c' SPICE_CHANNEL_OPENED)
          (step (ev_channel_new s d) (main argv evs)) =
     step (ev_channel_new s d) (main argv evs).
Proof.
  intros Hs Hc Hd1 Hd2. set (st := main argv evs) in *.
  assert (H : Inv st) by apply Inv_main.
  repeat split.
  - rewrite (new_calls_step _ st H). cbn [step_calls]. now rewrite Hs, Hc.
  - rewrite (step_eq _ _ (Inv_step (ev_channel_new s c) st H)). reflexivity.
  - rewrite (step_eq _ st H). cbn [step_post]. rewrite Hs.
    destruct (Z.eqb_spec (channel_type d) 1) as [E|_]; [contradiction|].
    destruct (Z.eqb_spec (channel_type d) 2) as [E|_]; [contradiction|].
    reflexivity.
  - rewrite (step_eq _ _ (Inv_step (ev_channel_new s d) st H)). reflexivity.
Qed.

Lemma C6_witness :
  new_calls (main [] [ev_activate])
            (step (ev_channel_new 1%N display_channel) (main [] [ev_activate])) =
    display_calls (window (main [] [ev_activate]))
                  (next_handle (main [] [ev_activate]))
                  1%N (channel_id display_channel)
  /\ step (ev_channel_event main_channel SPICE_CHANNEL_OPENED)
          (step (ev_channel_new 1%N display_channel) (main [] [ev_activate])) =
     step (ev_channel_new 1%N display_channel) (main [] [ev_activate])
  /\ step (ev_channel_new 1%N (usbredir_channel 0)) (main [] [ev_activate]) =
     log [c_printf_channel (channel_type (usbredir_channel 0))]
         (main [] [ev_activate])
  /\ step (ev_channel_event main_channel SPICE_CHANNEL_OPENED)
          (step (ev_channel_new 1%N (usbredir_channel 0)) (main [] [ev_activate])) =
     step (ev_channel_new 1%N (usbredir_channel 0)) (main [] [ev_activate]).
Proof.
  apply (C6_display_attached_at_once [] [ev_activate] 1%N display_channel
           main_channel (usbredir_channel 0));
    try reflexivity; discriminate.
Defined.

(** The connection has been requested and the Main channel announced, but it
    has reported nothing yet: the Display announcement is acted on at once,
    and the later open event of the Main channel replays nothing. *)
Lemma C6_counterexample :
  new_calls (main [] [ev_activate; ev_channel_new 1%N main_channel])
    (step (ev_channel_new 1%N display_channel)
          (main [] [ev_activate; ev_channel_new 1%N main_channel]))
  = [c_printf_channel 2;
     c_spice_display_new 1%N 2 2%N;
     c_gtk_container_add (Some 0%N) 2%N;
     c_gtk_widget_show_all (Some 0%N);
     c_gtk_window_new 3%N;
     c_gtk_window_set_title 3%N "USB redirection";
     c_spice_usb_device_widget_new 1%N "%s %s %s at %d-%d" 4%N;
     c_gtk_container_add (Some 3%N) 4%N;
     c_gtk_widget_show_all (Some 3%N)]
  /\ new_calls session_up
       (step (ev_channel_event main_channel SPICE_CHANNEL_OPENED) session_up) = [].
Proof. split; reflexivity. Qed.

(** * Further properties of the callbacks *)

(** ** No NULL argument *)

Lemma session_made_globals s st :
  Inv st -> session_made s (trace st) = true ->
  exists w0 s0, window st = Some w0 /\ spiceSession st = Some s0 /\
                main_window w0 (trace st) = true /\
                session_made s0 (trace st) = true.
Proof.
  intros H Hm. destruct (inv_globals st H) as [(_ & _ & _ & Hno & _)|Hg].
  - now rewrite Hno in Hm.
  - exact Hg.
Qed.

Lemma no_null_teardown st k :
  window st <> None -> spiceSession st <> None ->
  forallb no_null (List.concat (repeat (teardown_calls st) k)) = true.
Proof.
  intros Hw Hs. induction k as [|k IH]; [reflexivity|].
  cbn [repeat List.concat teardown_calls app forallb no_null].
  destruct (window st); [|contradiction].
  destruct (spiceSession st); [|contradiction].
  exact IH.
Qed.

Lemma no_null_step ev st :
  Inv st -> forallb no_null (step_calls ev st) = true.
Proof.
  intros H. destruct ev as [|w|s c|c e]; cbn [step_calls].
  - reflexivity.
  - destruct (main_window w (trace st)) eqn:E; [|reflexivity].
    destruct (main_window_globals w st H E) as (w0 & s0 & _ & Hs & _).
    now rewrite Hs.
  - destruct (session_made s (trace st)) eqn:E; [|reflexivity].
    destruct (session_made_globals s st H E) as (w0 & s0 & Hw & _).
    destruct (channel_type c =? 1); [reflexivity|].
    destruct (channel_type c =? 2); [|reflexivity].
    now rewrite Hw.
  - destruct (is_error_connect e); [|reflexivity].
    destruct (attached c st) as [|k] eqn:Ek; [reflexivity|].
    destruct (attached_window c st H) as (w0 & s0 & Hw & Hs & _);
      [rewrite Ek; lia|].
    apply no_null_teardown; congruence.
Qed.

Lemma no_null_run evs : forall st,
  Inv st -> forallb no_null (trace st) = true ->
  forallb no_null (trace (run evs st)) = true.
Proof.
  induction evs as [|ev evs IH]; intros st H Hn; [exact Hn|].
  cbn [run]. apply IH; [now apply Inv_step|].
  rewrite (step_trace ev st H), forallb_app, Hn. now apply no_null_step.
Qed.

(** X1.  Whatever events arrive, the program never hands a NULL pointer to
    the library: every call of [spice_session_disconnect],
    [g_signal_emit_by_name], [gtk_container_add] and [gtk_widget_show_all]
    in the trace of every execution has a non-NULL object argument,
    although the two globals start as NULL and the callbacks do not test
    them. *)
Theorem X1_no_null_argument (argv : list string) (evs : list event) :
  forallb no_null (trace (main argv evs)) = true.
Proof. apply no_null_run; [apply Inv_setup|reflexivity]. Qed.

(** ** Before the first activation *)

Lemma step_before_activation ev :
  is_activate ev = false ->
  step ev (exec main_setup initial) = exec main_setup initial.
Proof. destruct ev; [discriminate|reflexivity..]. Qed.

(** X3.  Until the application is activated for the first time nothing is
    connected but [activate]: window, session and channel events that arrive
    earlier run no callback and leave the program state as [main] set it
    up. *)
Theorem X3_idle_before_activation (argv : list string) (evs : list event) :
  activations evs = 0%nat ->
  main argv evs = exec main_setup initial.
Proof.
  unfold main. induction evs as [|ev evs IH]; intros Ha; [reflexivity|].
  unfold activations in Ha. cbn [filter] in Ha.
  destruct (is_activate ev) eqn:E; [discriminate Ha|].
  cbn [run]. rewrite (step_before_activation ev E). now apply IH.
Qed.

Lemma X3_witness :
  main [] [ev_destroy 0%N; ev_channel_new 1%N main_channel;
           ev_channel_event main_channel SPICE_CHANNEL_ERROR_CONNECT]
  = exec main_setup initial.
Proof.
  apply (X3_idle_before_activation []
           [ev_destroy 0%N; ev_channel_new 1%N main_channel;
            ev_channel_event main_channel SPICE_CHANNEL_ERROR_CONNECT]).
  reflexivity.
Defined.

(** ** After an activation *)

Lemma globals_step ev st :
  Inv st -> window st <> None -> window (step ev st) <> None.
Proof.
  intros H Hw. rewrite (step_eq ev st H).
  destruct ev as [|w|s c|c e]; cbn [step_post].
  - discriminate.
  - now destruct (main_window w (trace st)).
  - destruct (session_made s (trace st)); [|exact Hw].
    destruct (channel_type c =? 1); [exact Hw|].
    now destruct (channel_type c =? 2).
  - now destruct (is_error_connect e).
Qed.

Lemma globals_run evs : forall st,
  Inv st -> window st <> None -> window (run evs st) <> None.
Proof.
  induction evs as [|ev evs IH]; intros st H Hw; [exact Hw|].
  cbn [run]. apply IH; [now apply Inv_step | now apply globals_step].
Qed.

Lemma activated_run evs : forall st,
  Inv st -> (0 < activations evs)%nat -> window (run evs st) <> None.
Proof.
  induction evs as [|ev evs IH]; intros st H Ha; [cbn in Ha; lia|].
  cbn [run]. unfold activations in Ha. cbn [filter] in Ha.
  destruct ev; cbn [is_activate] in Ha;
    try (apply IH; [now apply Inv_step | exact Ha]).
  apply globals_run; [now apply Inv_step|].
  rewrite (step_eq _ st H). discriminate.
Qed.

(** X5.  Once the application has been activated at least once, both
    globals are set, whatever else has happened: [window] is a window made
    by [gtk_application_window_new] and [spiceSession] a session made by
    [spice_session_new].  No callback ever resets them to NULL. *)
Theorem X5_globals_set_after_activation (argv : list string) (evs : list event) :
  (0 < activations evs)%nat ->
  exists w s,
    window (main argv evs) = Some w /\
    spiceSession (main argv evs) = Some s /\
    main_window w (trace (main argv evs)) = true /\
    session_made s (trace (main argv evs)) = true.
Proof.
  intros Ha.
  destruct (inv_globals _ (Inv_main argv evs)) as [(Hw & _)|Hg]; [|exact Hg].
  destruct (activated_run evs _ Inv_setup Ha). exact Hw.
Qed.

Lemma X5_witness :
  exists w s,
    window (main [] [ev_activate; ev_destroy 0%N]) = Some w /\
    spiceSession (main [] [ev_activate; ev_destroy 0%N]) = Some s /\
    main_window w (trace (main [] [ev_activate; ev_destroy 0%N])) = true /\
    session_made s (trace (main [] [ev_activate; ev_destroy 0%N])) = true.
Proof.
  apply (X5_globals_set_after_activation [] [ev_activate; ev_destroy 0%N]).
  vm_compute. lia.
Defined.

(** ** The windows of [newChannel] *)

Lemma channel_widget_app u (tr d : list call) :
  channel_widget u (tr ++ d) = channel_widget u tr || channel_widget u d.
Proof. apply existsb_app. Qed.

Lemma channel_widget_teardown u st k :
  channel_widget u (List.concat (repeat (teardown_calls st) k)) = false.
Proof. induction k as [|k IH]; [reflexivity|exact IH]. Qed.

Lemma not_main_window_fresh u st :
  Inv st -> (next_handle st <= u)%N -> main_window u (trace st) = false.
Proof.
  intros H Hu. destruct (main_window u (trace st)) eqn:E; [|reflexivity].
  apply (inv_fresh_window st H) in E. lia.
Qed.

Lemma widgets_apart_step ev st :
  Inv st -> widgets_apart st -> widgets_apart (step ev st).
Proof.
  intros H K u. pose proof (step_next_handle ev st H) as Hn.
  rewrite (step_trace ev st H), channel_widget_app, main_window_app.
  intros Hu. apply orb_true_iff in Hu. destruct Hu as [Hu|Hu].
  - destruct (K u Hu) as [Hlt Hm]. split; [lia|]. rewrite Hm. cbn [orb].
    destruct ev as [|w|s c|c e]; cbn [step_calls].
    + cbn. rewrite !orb_false_r. apply N.eqb_neq. lia.
    + now destruct (main_window w (trace st)).
    + destruct (session_made s (trace st)); [|reflexivity].
      destruct (channel_type c =? 1); [reflexivity|].
      now destruct (channel_type c =? 2).
    + destruct (is_error_connect e); [apply teardown_no_window|reflexivity].
  - destruct ev as [|w|s c|c e]; cbn [step_calls] in Hu.
    + discriminate Hu.
    + destruct (main_window w (trace st)); discriminate Hu.
    + rewrite (step_eq _ st H). cbn [step_post step_calls].
      destruct (session_made s (trace st)); [|discriminate Hu].
      destruct (channel_type c =? 1); [discriminate Hu|].
      destruct (channel_type c =? 2); [|discriminate Hu].
      cbn in Hu. rewrite !orb_false_r in Hu.
      assert (Hr : (next_handle st <= u < N.succ (N.succ (N.succ (next_handle st))))%N).
      { repeat (apply orb_true_iff in Hu; destruct Hu as [Hu|Hu]);
          apply N.eqb_eq in Hu; lia. }
      split; [cbn; lia|].
      rewrite (not_main_window_fresh u st H) by lia. reflexivity.
    + destruct (is_error_connect e); [|discriminate Hu].
      now rewrite channel_widget_teardown in Hu.
Qed.

Lemma widgets_apart_run evs : forall st,
  Inv st -> widgets_apart st -> widgets_apart (run evs st).
Proof.
  induction evs as [|ev evs IH]; intros st H K; [exact K|].
  cbn [run]. apply IH; [now apply Inv_step | now apply widgets_apart_step].
Qed.

(** X2.  Only the main window carries [onClose].  Destroying any object
    that [newChannel] has made for a Display channel, in particular closing
    a "USB redirection" window, runs no callback: the session is not
    disconnected and the program state is unchanged. *)
Theorem X2_closing_usb_window_keeps_session
    (argv : list string) (evs : list event) (u : handle) :
  channel_widget u (trace (main argv evs)) = true ->
  step (ev_destroy u) (main argv evs) = main argv evs.
Proof.
  intros Hu.
  assert (K : widgets_apart (main argv evs)).
  { apply widgets_apart_run; [apply Inv_setup|]. intros v Hv. discriminate Hv. }
  destruct (K u Hu) as [_ Hm].
  rewrite (step_eq _ _ (Inv_main argv evs)). cbn [step_post]. now rewrite Hm.
Qed.

(** In [session_up] object 3 is the USB window of the Display channel. *)
Lemma X2_witness : step (ev_destroy 3%N) session_up = session_up.
Proof.
  refine (X2_closing_usb_window_keeps_session []
            [ev_activate; ev_channel_new 1%N main_channel;
             ev_channel_new 1%N display_channel] 3%N _).
  reflexivity.
Defined.

(** ** Sessions *)

Lemma count_teardown_zero p st k :
  (forall t, p (c_printf t) = false) ->
  (forall o sig, p (c_g_signal_emit_by_name o sig) = false) ->
  (forall o, p (c_spice_session_disconnect o) = false) ->
  count p (List.concat (repeat (teardown_calls st) k)) = 0%nat.
Proof. intros H1 H2 H3. now apply count_teardown. Qed.

(** Calls that only [activate] makes are not made by the other events. *)
Lemma count_other_step p ev st :
  is_activate ev = false ->
  (forall t, p (c_printf t) = false) ->
  (forall t, p (c_printf_channel t) = false) ->
  (forall o sig cb, p (c_g_signal_connect o sig cb) = false) ->
  (forall o sig, p (c_g_signal_emit_by_name o sig) = false) ->
  (forall o, p (c_spice_session_disconnect o) = false) ->
  (forall w, p (c_gtk_window_new w) = false) ->
  (forall w t, p (c_gtk_window_set_title w t) = false) ->
  (forall w x, p (c_gtk_container_add w x) = false) ->
  (forall w, p (c_gtk_widget_show_all w) = false) ->
  (forall s i d, p (c_spice_display_new s i d) = false) ->
  (forall s f u, p (c_spice_usb_device_widget_new s f u) = false) ->
  count p (step_calls ev st) = 0%nat.
Proof.
  intros Ha H1 H2 H3 H4 H5 H6 H7 H8 H9 H10 H11.
  destruct ev as [|w|s c|c e]; [discriminate Ha| | |]; cbn [step_calls].
  - destruct (main_window w (trace st)); [|reflexivity].
    unfold count. cbn. now rewrite H5.
  - destruct (session_made s (trace st)); [|reflexivity].
    destruct (channel_type c =? 1).
    { unfold count. cbn. now rewrite H2, H3. }
    destruct (channel_type c =? 2).
    + unfold count, display_calls. cbn [filter].
      now rewrite H2, H10, !H8, !H9, H6, H7, H11.
    + unfold count. cbn. now rewrite H2.
  - destruct (is_error_connect e); [|reflexivity].
    now apply count_teardown_zero.
Qed.

Lemma session_once_step s ev st :
  Inv st -> session_once s (trace st) -> session_once s (trace (step ev st)).
Proof.
  intros H (Hn & Hu & Hc). unfold session_once.
  rewrite (step_trace ev st H), session_made_app, !count_app, Hn, Hu, Hc.
  destruct (is_activate ev) eqn:Ea.
  - destruct ev; try discriminate Ea. cbn [step_calls].
    unfold count. cbn. rewrite !orb_false_r, !andb_true_r.
    destruct (N.eqb_spec s (N.succ (next_handle st))) as [->|Hne].
    + assert (Hf : session_made (N.succ (next_handle st)) (trace st) = false).
      { destruct (session_made _ (trace st)) eqn:E; [|reflexivity].
        apply (inv_fresh_session st H) in E. lia. }
      rewrite Hf. cbn. auto.
    + rewrite orb_false_r. cbn. rewrite !Nat.add_0_r. auto.
  - assert (Hm : session_made s (step_calls ev st) = false).
    { destruct ev as [|w|s' c|c e]; [discriminate Ea| | |]; cbn [step_calls].
      - now destruct (main_window w (trace st)).
      - destruct (session_made s' (trace st)); [|reflexivity].
        destruct (channel_type c =? 1); [reflexivity|].
        now destruct (channel_type c =? 2).
      - destruct (is_error_connect e); [apply teardown_no_session|reflexivity]. }
    rewrite Hm, orb_false_r.
    rewrite !(count_other_step _ ev st Ea) by reflexivity.
    rewrite !Nat.add_0_r. auto.
Qed.

Lemma session_once_run s evs : forall st,
  Inv st -> session_once s (trace st) -> session_once s (trace (run evs st)).
Proof.
  induction evs as [|ev evs IH]; intros st H K; [exact K|].
  cbn [run]. apply IH; [now apply Inv_step | now apply session_once_step].
Qed.

(** X4.  Every session the program creates is given its "uri" exactly once
    and connected exactly once; a session is never connected a second time,
    not even after it has been disconnected, and nothing that the program
    did not create is ever connected. *)
Theorem X4_each_session_connected_once
    (argv : list string) (evs : list event) (s : handle) :
  count (is_session_new s) (trace (main argv evs)) =
    (if session_made s (trace (main argv evs)) then 1 else 0)%nat
  /\ count (is_set_uri s) (trace (main argv evs)) =
    (if session_made s (trace (main argv evs)) then 1 else 0)%nat
  /\ count (is_connect s) (trace (main argv evs)) =
    (if session_made s (trace (main argv evs)) then 1 else 0)%nat.
Proof.
  apply (session_once_run s evs); [apply Inv_setup|].
  repeat split; reflexivity.
Qed.

(** ** Display surfaces and USB windows go together *)

Lemma display_usb_step ev st :
  count is_any_display_new (step_calls ev st) =
    count is_usb_widget_new (step_calls ev st)
  /\ count is_any_window_new (step_calls ev st) =
    count is_usb_widget_new (step_calls ev st).
Proof.
  destruct ev as [|w|s c|c e]; cbn [step_calls].
  - split; reflexivity.
  - destruct (main_window w (trace st)); split; reflexivity.
  - destruct (session_made s (trace st)); [|split; reflexivity].
    destruct (channel_type c =? 1); [split; reflexivity|].
    destruct (channel_type c =? 2); split; reflexivity.
  - destruct (is_error_connect e); [|split; reflexivity].
    rewrite !count_teardown by reflexivity. split; reflexivity.
Qed.

Lemma display_usb_run evs : forall st,
  Inv st ->
  count is_any_display_new (trace st) = usb_widgets st /\
  count is_any_window_new (trace st) = usb_widgets st ->
  count is_any_display_new (trace (run evs st)) = usb_widgets (run evs st) /\
  count is_any_window_new (trace (run evs st)) = usb_widgets (run evs st).
Proof.
  induction evs as [|ev evs IH]; intros st H K; [exact K|].
  cbn [run]. apply IH; [now apply Inv_step|].
  unfold usb_widgets in *. rewrite (step_trace ev st H), !count_app.
  destruct K as [K1 K2]. destruct (display_usb_step ev st) as [S1 S2].
  rewrite K1, K2, S1, S2. split; reflexivity.
Qed.

(** X6.  Whenever the program is between two events, every callback
    having returned, it has created as many display surfaces
    ([spice_display_new]) as USB windows ([gtk_window_new]) and as
    USB-redirection widgets ([spice_usb_device_widget_new]): no event
    creates one of the three without the other two. *)
Theorem X6_one_usb_window_per_display (argv : list string) (evs : list event) :
  count is_any_display_new (trace (main argv evs)) = usb_widgets (main argv evs)
  /\ count is_any_window_new (trace (main argv evs)) = usb_widgets (main argv evs).
Proof. apply display_usb_run; [apply Inv_setup|split; reflexivity]. Qed.

(** ** Teardown has no guard *)

Lemma log_log (d1 d2 : list call) st : log d2 (log d1 st) = log (d1 ++ d2) st.
Proof. unfold log; cbn. now rewrite app_assoc. Qed.

Lemma destroy_repeated w st n : forall d : list call,
  Inv st -> main_window w (trace st) = true ->
  run (repeat (ev_destroy w) n) (log d st) =
  log (d ++ repeat (c_spice_session_disconnect (spiceSession st)) n) st.
Proof.
  induction n as [|n IH]; intros d H Hm.
  - cbn. now rewrite app_nil_r.
  - cbn [repeat run].
    assert (Hl : step (ev_destroy w) (log d st) =
                 log (d ++ [c_spice_session_disconnect (spiceSession st)]) st).
    { unfold step, exec, deliver, dispatch.
      change (handlers (obj_widget w) "destroy" (log d st))
        with (handlers (obj_widget w) "destroy" st).
      rewrite (inv_destroy st H), Hm.
      cbn [map run_callbacks invoke_destroy]. unfold bind.
      rewrite onClose_eq. cbn [snd]. apply log_log. }
    rewrite Hl, IH by assumption. now rewrite <- app_assoc.
Qed.

(** X7.  [onClose] has no guard: every delivery of "destroy" of a main
    window calls [spice_session_disconnect] again on the same session.
    Delivered [n] times, it issues [n] disconnect requests and changes
    nothing else. *)
Theorem X7_every_destroy_disconnects_again
    (argv : list string) (evs : list event) (w : handle) (n : nat) :
  main_window w (trace (main argv evs)) = true ->
  run (repeat (ev_destroy w) n) (main argv evs) =
  log (repeat (c_spice_session_disconnect (spiceSession (main argv evs))) n)
      (main argv evs).
Proof.
  intros Hm. rewrite <- (log_nil (main argv evs)) at 1.
  now rewrite (destroy_repeated w _ n [] (Inv_main argv evs) Hm).
Qed.

Lemma X7_witness :
  run (repeat (ev_destroy 0%N) 3) (main [] [ev_activate]) =
  log (repeat (c_spice_session_disconnect (spiceSession (main [] [ev_activate]))) 3)
      (main [] [ev_activate]).
Proof.
  apply (X7_every_destroy_disconnects_again [] [ev_activate] 0%N 3).
  reflexivity.
Defined.

(** X8.  The program has no shutting-down state.  The teardown on a connect
    error changes neither the globals nor the connections, so a Display
    channel announced afterwards by a session of the program is still acted
    on and gets its display surface. *)
Theorem X8_announcements_handled_after_teardown
    (argv : list string) (evs : list event) (m c : SpiceChannel) (s : handle) :
  session_made s (trace (main argv evs)) = true ->
  channel_type c = 2 ->
  window (step (ev_channel_event m SPICE_CHANNEL_ERROR_CONNECT) (main argv evs))
    = window (main argv evs)
  /\ spiceSession (step (ev_channel_event m SPICE_CHANNEL_ERROR_CONNECT) (main argv evs))
    = spiceSession (main argv evs)
  /\ connections (step (ev_channel_event m SPICE_CHANNEL_ERROR_CONNECT) (main argv evs))
    = connections (main argv evs)
  /\ displays s (channel_id c)
       (step (ev_channel_new s c)
          (step (ev_channel_event m SPICE_CHANNEL_ERROR_CONNECT) (main argv evs)))
     = S (displays s (channel_id c)
            (step (ev_channel_event m SPICE_CHANNEL_ERROR_CONNECT) (main argv evs))).
Proof.
  intros Hs Hc. set (st := main argv evs) in *.
  assert (H : Inv st) by apply Inv_main.
  assert (H' : Inv (step (ev_channel_event m SPICE_CHANNEL_ERROR_CONNECT) st))
    by now apply Inv_step.
  assert (Hs' : session_made s
            (trace (step (ev_channel_event m SPICE_CHANNEL_ERROR_CONNECT) st)) = true)
    by now apply session_made_step.
  repeat split; try (rewrite (step_eq _ st H); reflexivity).
  rewrite displays_channel_new, Hc by assumption. cbn. lia.
Qed.

Lemma X8_witness :
  window (step (ev_channel_event main_channel SPICE_CHANNEL_ERROR_CONNECT) session_up)
    = window session_up
  /\ spiceSession (step (ev_channel_event main_channel SPICE_CHANNEL_ERROR_CONNECT) session_up)
    = spiceSession session_up
  /\ connections (step (ev_channel_event main_channel SPICE_CHANNEL_ERROR_CONNECT) session_up)
    = connections session_up
  /\ displays 1%N (channel_id display_channel)
       (step (ev_channel_new 1%N display_channel)
          (step (ev_channel_event main_channel SPICE_CHANNEL_ERROR_CONNECT) session_up))
     = S (displays 1%N (channel_id display_channel)
            (step (ev_channel_event main_channel SPICE_CHANNEL_ERROR_CONNECT) session_up)).
Proof.
  refine (X8_announcements_handled_after_teardown []
            [ev_activate; ev_channel_new 1%N main_channel;
             ev_channel_new 1%N display_channel]
            main_channel display_channel 1%N _ _);
    reflexivity.
Defined.

Lemma count_disconnect_teardown st k :
  count is_disconnect (List.concat (repeat (teardown_calls st) k)) = k.
Proof.
  induction k as [|k IH]; [reflexivity|].
  cbn [repeat List.concat teardown_calls app]. unfold count in *.
  cbn. now rewrite IH.
Qed.

(** X9.  A Main channel announced more than once has [channelEvent]
    connected as many times, and each connection acts on its own: one
    connect error on the channel issues as many [spice_session_disconnect]
    calls as the handler is attached, and each further announcement of the
    channel by a session of the program adds one. *)
Theorem X9_disconnects_per_attached_handler
    (argv : list string) (evs : list event) (c : SpiceChannel) (s : handle) :
  session_made s (trace (main argv evs)) = true ->
  channel_type c = 1 ->
  count is_disconnect
    (new_calls (main argv evs)
       (step (ev_channel_event c SPICE_CHANNEL_ERROR_CONNECT) (main argv evs)))
    = attached c (main argv evs)
  /\ count is_disconnect
       (new_calls (step (ev_channel_new s c) (main argv evs))
          (step (ev_channel_event c SPICE_CHANNEL_ERROR_CONNECT)
             (step (ev_channel_new s c) (main argv evs))))
     = S (attached c (main argv evs)).
Proof.
  intros Hs Hc. set (st := main argv evs) in *.
  assert (H : Inv st) by apply Inv_main.
  assert (H' : Inv (step (ev_channel_new s c) st)) by now apply Inv_step.
  split.
  - rewrite (new_calls_step _ st H). cbn [step_calls is_error_connect].
    apply count_disconnect_teardown.
  - rewrite (new_calls_step _ _ H'). cbn [step_calls is_error_connect].
    rewrite count_disconnect_teardown, attached_channel_new, Hc by assumption.
    cbn. lia.
Qed.

Lemma X9_witness :
  count is_disconnect
    (new_calls session_up
       (step (ev_channel_event main_channel SPICE_CHANNEL_ERROR_CONNECT) session_up))
    = attached main_channel session_up
  /\ count is_disconnect
       (new_calls (step (ev_channel_new 1%N main_channel) session_up)
          (step (ev_channel_event main_channel SPICE_CHANNEL_ERROR_CONNECT)
             (step (ev_channel_new 1%N main_channel) session_up)))
     = S (attached main_channel session_up).
Proof.
  refine (X9_disconnects_per_attached_handler []
            [ev_activate; ev_channel_new 1%N main_channel;
             ev_channel_new 1%N display_channel]
            main_channel 1%N _ _);
    reflexivity.
Defined.

(** ** A connect error on the Main channel *)

Lemma in_teardown st k :
  In (c_spice_session_disconnect (spiceSession st))
     (List.concat (repeat (teardown_calls st) (S k))).
Proof. cbn. auto. Qed.

Lemma last_call_teardown st k acc :
  fold_left last_call (List.concat (repeat (teardown_calls st) k)) acc = acc.
Proof. induction k as [|k IH]; [reflexivity|exact IH]. Qed.

(** [spiceSession] always is the session made last. *)
Lemma last_session_step ev st :
  Inv st -> last_session (trace st) = spiceSession st ->
  last_session (trace (step ev st)) = spiceSession (step ev st).
Proof.
  intros H Hl. rewrite (step_eq ev st H). unfold last_session in *.
  destruct ev as [|w|s c|c e]; cbn [step_post].
  - unfold activate_post. cbn [trace spiceSession].
    now rewrite fold_left_app.
  - destruct (main_window w (trace st)); [|exact Hl].
    unfold log. cbn [trace spiceSession]. now rewrite fold_left_app, Hl.
  - destruct (session_made s (trace st)); [|exact Hl].
    destruct (channel_type c =? 1).
    { unfold main_channel_post. cbn [trace spiceSession].
      now rewrite fold_left_app, Hl. }
    destruct (channel_type c =? 2).
    + unfold display_post. cbn [trace spiceSession].
      now rewrite fold_left_app, Hl.
    + unfold log. cbn [trace spiceSession]. now rewrite fold_left_app, Hl.
  - destruct (is_error_connect e); [|exact Hl].
    unfold log. cbn [trace spiceSession].
    now rewrite fold_left_app, Hl, last_call_teardown.
Qed.

Lemma last_session_run evs : forall st,
  Inv st -> last_session (trace st) = spiceSession st ->
  last_session (trace (run evs st)) = spiceSession (run evs st).
Proof.
  induction evs as [|ev evs IH]; intros st H Hl; [exact Hl|].
  cbn [run]. apply IH; [now apply Inv_step | now apply last_session_step].
Qed.

(** An event other than an activation makes no session and leaves
    [spiceSession] alone. *)
Lemma other_step_sessions ev st s :
  Inv st -> is_activate ev = false ->
  session_made s (trace (step ev st)) = session_made s (trace st) /\
  spiceSession (step ev st) = spiceSession st.
Proof.
  intros H Ha. split.
  - rewrite (step_trace ev st H), session_made_app.
    destruct ev as [|w|s' c|c e]; [discriminate Ha| | |]; cbn [step_calls].
    + destruct (main_window w (trace st)); apply orb_false_r.
    + destruct (session_made s' (trace st)); [|apply orb_false_r].
      destruct (channel_type c =? 1); [apply orb_false_r|].
      destruct (channel_type c =? 2); apply orb_false_r.
    + destruct (is_error_connect e); [|apply orb_false_r].
      now rewrite teardown_no_session, orb_false_r.
  - rewrite (step_eq ev st H).
    destruct ev as [|w|s' c|c e]; [discriminate Ha| | |]; cbn [step_post].
    + now destruct (main_window w (trace st)).
    + destruct (session_made s' (trace st)); [|reflexivity].
      destruct (channel_type c =? 1); [reflexivity|].
      now destruct (channel_type c =? 2).
    + now destruct (is_error_connect e).
Qed.

Lemma only_session_run evs : forall st,
  Inv st ->
  (forall s, session_made s (trace st) = true -> spiceSession st = Some s) ->
  activations evs = 0%nat ->
  forall s, session_made s (trace (run evs st)) = true ->
            spiceSession (run evs st) = Some s.
Proof.
  induction evs as [|ev evs IH]; intros st H K Ha; [exact K|].
  unfold activations in Ha. cbn [filter] in Ha.
  destruct (is_activate ev) eqn:E; [discriminate Ha|].
  cbn [run]. apply IH; [now apply Inv_step| |exact Ha].
  intros s. destruct (other_step_sessions ev st s H E) as [-> ->]. apply K.
Qed.

Lemma one_activation_run evs : forall st,
  Inv st ->
  (forall s, session_made s (trace st) = false) ->
  activations evs = 1%nat ->
  forall s, session_made s (trace (run evs st)) = true ->
            spiceSession (run evs st) = Some s.
Proof.
  induction evs as [|ev evs IH]; intros st H Z Ha; [discriminate Ha|].
  unfold activations in Ha. cbn [filter] in Ha.
  destruct (is_activate ev) eqn:E.
  - cbn [List.length] in Ha. cbn [run].
    apply only_session_run; [now apply Inv_step| |unfold activations; lia].
    destruct ev; try discriminate E.
    intros s. rewrite (step_eq _ st H). cbn [step_post].
    unfold activate_post. cbn [trace spiceSession].
    rewrite session_made_app, Z. cbn. rewrite !orb_false_r.
    intros Hs. apply N.eqb_eq in Hs. now subst.
  - cbn [run]. apply IH; [now apply Inv_step| |exact Ha].
    intros s. destruct (other_step_sessions ev st s H E) as [-> _]. apply Z.
Qed.

Lemma session_made_run s evs : forall st,
  Inv st -> session_made s (trace st) = true ->
  session_made s (trace (run evs st)) = true.
Proof.
  induction evs as [|ev evs IH]; intros st H Hs; [exact Hs|].
  cbn [run]. apply IH; [now apply Inv_step | now apply session_made_step].
Qed.

(** C1 (as the program has it).  In every reachable state, the event
    SPICE_CHANNEL_ERROR_CONNECT delivered on a channel that has
    [channelEvent] attached (an announced Main channel) makes the program
    call [spice_session_disconnect] on the session its global
    [spiceSession] points to, which is the session made by the most recent
    [spice_session_new].  When the application has been activated exactly
    once that is the only session of the program, hence the one that
    announced the channel.  The program never calls [spice_session_connect]
    on that session again, whatever events follow.  Every other event on
    the channel changes nothing. *)
Theorem C1_connect_error_disconnects_current_session
    (argv : list string) (evs : list event) (c : SpiceChannel) :
  In (mkConn (obj_channel c) "channel-event" cb_channelEvent)
     (connections (main argv evs)) ->
  exists s,
    spiceSession (main argv evs) = Some s /\
    last_session (trace (main argv evs)) = Some s /\
    In (c_spice_session_disconnect (Some s))
       (new_calls (main argv evs)
          (step (ev_channel_event c SPICE_CHANNEL_ERROR_CONNECT) (main argv evs))) /\
    (forall evs',
       count (is_connect s)
         (trace (run evs'
            (step (ev_channel_event c SPICE_CHANNEL_ERROR_CONNECT) (main argv evs))))
       = 1%nat) /\
    (activations evs = 1%nat ->
     forall s', session_made s' (trace (main argv evs)) = true -> s' = s) /\
    (forall e, e <> SPICE_CHANNEL_ERROR_CONNECT ->
               step (ev_channel_event c e) (main argv evs) = main argv evs).
Proof.
  intros Hin.
  pose proof (one_activation_run evs _ Inv_setup (fun _ => eq_refl)) as Hone.
  pose proof (last_session_run evs _ Inv_setup eq_refl) as Hlast.
  pose proof (session_once_run) as Honce.
  fold (main argv evs) in Hone, Hlast.
  set (st := main argv evs) in *.
  assert (H : Inv st) by apply Inv_main.
  pose proof (attached_in c st Hin) as Hk.
  destruct (attached_window c st H Hk) as (w & s & Hw & Hs & Hmw & Hms).
  exists s. split; [exact Hs|]. split; [now rewrite Hlast|].
  destruct (attached c st) as [|k] eqn:Ek; [lia|].
  assert (Hcalls : step_calls (ev_channel_event c SPICE_CHANNEL_ERROR_CONNECT) st =
                   List.concat (repeat (teardown_calls st) (S k))).
  { cbn [step_calls is_error_connect]. now rewrite Ek. }
  repeat split.
  - rewrite (new_calls_step _ st H), Hcalls, <- Hs. apply in_teardown.
  - intros evs'.
    set (st' := step (ev_channel_event c SPICE_CHANNEL_ERROR_CONNECT) st).
    assert (H' : Inv st') by now apply Inv_step.
    assert (Hms' : session_made s (trace st') = true)
      by now apply session_made_step.
    assert (Ho : session_once s (trace st)).
    { apply (Honce s evs); [apply Inv_setup|]. repeat split; reflexivity. }
    assert (Ho' : session_once s (trace st')) by now apply session_once_step.
    destruct (Honce s evs' st' H' Ho') as (_ & _ & Hc).
    now rewrite (session_made_run s evs' st' H' Hms') in Hc.
  - intros Ha s' Hs'. specialize (Hone Ha s' Hs'). congruence.
  - intros e He. rewrite (step_eq _ st H). cbn [step_post].
    destruct e; try reflexivity. contradiction.
Qed.

(** One activation, the Main channel announced, then its connect error. *)
Lemma C1_witness :
  exists s,
    spiceSession (main [] [ev_activate; ev_channel_new 1%N main_channel]) = Some s /\
    last_session (trace (main [] [ev_activate; ev_channel_new 1%N main_channel]))
      = Some s /\
    In (c_spice_session_disconnect (Some s))
       (new_calls (main [] [ev_activate; ev_channel_new 1%N main_channel])
          (step (ev_channel_event main_channel SPICE_CHANNEL_ERROR_CONNECT)
                (main [] [ev_activate; ev_channel_new 1%N main_channel]))) /\
    (forall evs',
       count (is_connect s)
         (trace (run evs'
            (step (ev_channel_event main_channel SPICE_CHANNEL_ERROR_CONNECT)
                  (main [] [ev_activate; ev_channel_new 1%N main_channel]))))
       = 1%nat) /\
    (activations [ev_activate; ev_channel_new 1%N main_channel] = 1%nat ->
     forall s',
       session_made s' (trace (main [] [ev_activate; ev_channel_new 1%N main_channel]))
         = true -> s' = s) /\
    (forall e, e <> SPICE_CHANNEL_ERROR_CONNECT ->
               step (ev_channel_event main_channel e)
                    (main [] [ev_activate; ev_channel_new 1%N main_channel]) =
               main [] [ev_activate; ev_channel_new 1%N main_channel]).
Proof.
  apply (C1_connect_error_disconnects_current_session []
           [ev_activate; ev_channel_new 1%N main_channel] main_channel).
  vm_compute. auto.
Defined.

(** [activate] overwrites both globals.  The application is activated, its
    session 1 announces the Main channel, and the application is activated
    again.  The connect error on that Main channel then emits "destroy" on
    the second window and disconnects the second session, 3; session 1,
    whose channel failed, is not disconnected. *)
Lemma C1_counterexample :
  session_made 1%N (trace activated_twice) = true
  /\ attached main_channel activated_twice = 1%nat
  /\ spiceSession activated_twice = Some 3%N
  /\ new_calls activated_twice
       (step (ev_channel_event main_channel SPICE_CHANNEL_ERROR_CONNECT)
             activated_twice)
     = [c_printf "SPICE_CHANNEL_ERROR_CONNECT\n";
        c_g_signal_emit_by_name (Some 2%N) "destroy";
        c_spice_session_disconnect (Some 3%N)].
Proof. repeat split; reflexivity. Qed.
